(** * Server node of gorse: master synchronisation and the two read caches

    A shallow embedding of [server.Server] ([Serve], [Sync]),
    [server.PopularItemsCache] and [server.HiddenItemsCache], with the
    properties of the node's specification stated over it.

    Conventions of the embedding.
    - A Go call that returns [(value, error)] is a pair [(value, option error)]
      where the value is used on both paths, and a [result] otherwise.
    - What the code does to the outside world (RPCs to the master, opening a
      store, sleeping, logging, writing the local cache file) is recorded, in
      program order, in a list of [event]s. What the outside world answers
      is an argument of the function ([tickEnv], [bootEnv], the store client).
    - [float64] is modelled by exact rationals extended with the two
      infinities. The code never does arithmetic on scores: it stores them,
      compares them, and converts [int64] Unix seconds to them, which is exact
      below 2^53. NaN is not modelled.
    - [time.Time] is a number of nanoseconds since the Unix epoch.
    - A pointer is an [option], nil being [None], and the dereference of a
      nil pointer panics. In [Sync] the deferred [base.CheckPanic] recovers:
      the function writes one error line and returns. In [Serve] and in the
      refresh goroutines nothing recovers, and the run ends there.
    - The mutexes of the caches are not modelled: every function below is one
      atomic step of one goroutine. *)

From Stdlib Require Import ZArith QArith List String Ascii Lia Permutation.
From stdpp Require Import base gmap strings list.

Local Open Scope string_scope.
Local Open Scope list_scope.
Local Open Scope Z_scope.

(** ** Go's [float64], [time] and juju [errors] *)

Inductive float64 : Type :=
| NegInf
| Fin (q : Q)
| PosInf.

(** [a <= b] on [float64]. *)
Definition float64_le (a b : float64) : bool :=
  match a, b with
  | NegInf, _ => true
  | _, PosInf => true
  | Fin x, Fin y => Qle_bool x y
  | _, _ => false
  end.

(** The conversion [float64(n)] of an [int64]. *)
Definition float64_of_int (n : Z) : float64 := Fin (inject_Z n).

(** The zero value of [float64]. *)
Definition float64_zero : float64 := Fin 0%Q.

Module time.

(** Nanoseconds since the Unix epoch. *)
Definition Time : Type := Z.

(** [time.Duration]: a number of nanoseconds. *)
Definition Duration : Type := Z.

Definition Second : Duration := 1000000000.

(** [t.Unix()]: whole seconds since the epoch, rounded down. *)
Definition Unix (t : Time) : Z := t / Second.

(** The zero value [time.Time{}]: the first of January of the year 1. *)
Definition Zero : Time := -62135596800 * Second.

End time.

Module errors.

Inductive error : Type :=
| NotAssigned (msg : string)
| Other (msg : string)
| Traced (e : error).

(** [errors.Cause]: the error under the [Trace] annotations. *)
Fixpoint Cause (e : error) : error :=
  match e with
  | Traced e' => Cause e'
  | _ => e
  end.

Definition IsNotAssigned (e : error) : bool :=
  match Cause e with
  | NotAssigned _ => true
  | _ => false
  end.

(** [errors.Trace] on an error that is not nil. *)
Definition Trace (e : error) : error := Traced e.

End errors.

Inductive result (A : Type) : Type :=
| Ok (a : A)
| Err (e : errors.error).
Arguments Ok {A} a.
Arguments Err {A} e.

(** ** What the node does to the outside world *)

Inductive level : Type := Debug | Info | Error | Fatal.

Inductive NodeType : Type := ServerNode | WorkerNode | MasterNode.

Record NodeInfo : Type := {
  NodeType_ : NodeType;
  NodeName : string;
  NodeHttpPort : Z
}.

(** The methods of the coordinator's RPC contract. *)
Inductive rpcMethod : Type := GetMeta | DescribeNode.

(** ** The cache store: [storage/cache] *)

Module cache.

Record Scored : Type := { Id : string; Score : float64 }.

(** Modelled from the spec: the names of the two well-known sorted
    collections, which [storage/cache] declares as constants. *)
Definition PopularItems : string := "popular_items".
Definition HiddenItemsV2 : string := "hidden_items_v2".

(** [cache.Key]: the parts of a key joined by a slash. *)
Fixpoint Key (parts : list string) : string :=
  match parts with
  | [] => ""
  | [k] => k
  | k :: rest => String.append k (String.append "/" (Key rest))
  end.

(** [cache.RemoveScores]: the identifiers, in order. *)
Definition RemoveScores (items : list Scored) : list string := map Id items.

(** The two methods of the [cache.Database] interface that the server's
    caches call. *)
Record Database : Type := {
  GetSorted : string -> Z -> Z -> result (list Scored);
  GetSortedByScore : string -> float64 -> float64 -> result (list Scored)
}.

(** The score of [x] lies in the inclusive range [[lo, hi]]. *)
Definition inRange (lo hi : float64) (x : Scored) : bool :=
  float64_le lo (Score x) && float64_le (Score x) hi.

(** Insertion into a list kept in ascending score order. *)
Fixpoint insertSorted (x : Scored) (l : list Scored) : list Scored :=
  match l with
  | [] => [x]
  | y :: l' => if float64_le (Score x) (Score y) then x :: l else y :: insertSorted x l'
  end.

Definition sortByScore (l : list Scored) : list Scored :=
  fold_right insertSorted [] l.

(** The elements of rank [begin] to [end_] inclusive; a negative rank
    counts from the end of the list. *)
Definition rankRange (l : list Scored) (begin end_ : Z) : list Scored :=
  let n := Z.of_nat (length l) in
  let b := if begin <? 0 then Z.max 0 (n + begin) else begin in
  let e := if end_ <? 0 then n + end_ else Z.min end_ (n - 1) in
  if e <? b then [] else firstn (Z.to_nat (e - b + 1)) (skipn (Z.to_nat b) l).

(** Modelled from the spec: a store that holds its sorted collections in
    memory and answers both range queries as the capability contract of the
    cache store prescribes: by rank in ascending score order, and by
    inclusive score bounds. *)
Definition memory (db : string -> list Scored) : Database := {|
  GetSorted key begin end_ := Ok (rankRange (sortByScore (db key)) begin end_);
  GetSortedByScore key lo hi := Ok (List.filter (inRange lo hi) (sortByScore (db key)))
|}.

(** A store every query of which fails with [e]. *)
Definition failing (e : errors.error) : Database := {|
  GetSorted _ _ _ := Err e;
  GetSortedByScore _ _ _ := Err e
|}.

End cache.

(** ** The data store: [storage/data]

    The server only holds the handle; a handle is known by the address it was
    opened with and a serial number that tells two connections apart. *)

Module data.

Inductive Database : Type :=
| NoDatabase
| Conn (addr : string) (serial : nat).

End data.

(** ** The configuration and its JSON decoding: [config], [encoding/json] *)

Module config.

Record DatabaseConfig : Type := { DataStore : string; CacheStore : string }.

Record MasterConfig : Type := { MetaTimeout : time.Duration }.

Record ServerConfig : Type := { CacheExpire : time.Duration }.

(** Modelled from the spec: the configuration record, which package
    [config] declares. It has at least the four settings the server reads:
    [Database.DataStore], [Database.CacheStore], [Master.MetaTimeout] and
    [Server.CacheExpire]. *)
Record Config : Type := {
  Database : DatabaseConfig;
  Master : MasterConfig;
  Server : ServerConfig
}.

(** The zero value of [Config], which [json.Unmarshal] allocates when it
    decodes into a nil pointer. *)
Definition zero : Config :=
  {| Database := {| DataStore := ""; CacheStore := "" |};
     Master := {| MetaTimeout := 0 |};
     Server := {| CacheExpire := 0 |} |}.

End config.

Module json.

(** The syntax tree of a JSON text. A number literal written as an integer
    carries its value; one with a fraction or an exponent cannot be stored
    in any of the fields below and carries nothing. *)
#[warnings="-register-all"]
Inductive value : Type :=
| Null
| Bool (b : bool)
| Integer (n : Z)
| NonInteger
| String (s : string)
| Array (elems : list value)
| Object (members : list (string * value)).

(** The text of a configuration blob is represented by what the scanner of
    [encoding/json] makes of it: [None] when the text is not valid JSON,
    its syntax tree otherwise. *)
Definition text : Type := option value.

Definition lower (c : ascii) : ascii :=
  let n := nat_of_ascii c in
  if ((65 <=? n) && (n <=? 90))%nat then ascii_of_nat (n + 32) else c.

Definition isByte (c : ascii) (n : nat) : bool := (nat_of_ascii c =? n)%nat.

(** The folded form of a key, a string of UTF-8 bytes: ASCII capitals become
    small letters, and so do the only two other characters that
    [encoding/json] takes for an ASCII letter, U+017F (long s, bytes C5 BF)
    for s and U+212A (Kelvin sign, bytes E2 84 AA) for k. *)
Fixpoint foldName (s : string) : string :=
  match s with
  | EmptyString => EmptyString
  | String.String c1 s1 =>
      match s1 with
      | EmptyString => String.String (lower c1) EmptyString
      | String.String c2 s2 =>
          if isByte c1 197 && isByte c2 191 then String.String "s" (foldName s2)
          else
            match s2 with
            | EmptyString => String.String (lower c1) (foldName s1)
            | String.String c3 s3 =>
                if isByte c1 226 && isByte c2 132 && isByte c3 170
                then String.String "k" (foldName s3)
                else String.String (lower c1) (foldName s1)
            end
      end
  end.

(** A member key selects the struct field whose name it equals under
    folding. *)
Definition EqualFold (a b : string) : bool :=
  String.eqb (foldName a) (foldName b).

Definition inInt64 (n : Z) : bool :=
  (- 2 ^ 63 <=? n) && (n <? 2 ^ 63).

(** Decoding a value into a field of type [string]. The boolean tells
    whether the value was unfit for the type (an [UnmarshalTypeError]), in
    which case the field is skipped; [null] leaves the field as it is. *)
Definition decodeString (v : value) (old : string) : string * bool :=
  match v with
  | String s => (s, false)
  | Null => (old, false)
  | _ => (old, true)
  end.

(** Decoding a value into a field of type [time.Duration], an [int64]. *)
Definition decodeDuration (v : value) (old : time.Duration) : time.Duration * bool :=
  match v with
  | Integer n => if inInt64 n then (n, false) else (old, true)
  | Null => (old, false)
  | _ => (old, true)
  end.

(** Decoding an object into a struct: the members are taken in order, each
    is stored in the field its key selects, members that select no field
    are ignored, and fields that no member selects keep their value. *)
Definition decodeMembers {A : Type} (field : string -> value -> A -> A * bool)
    (members : list (string * value)) (old : A) : A * bool :=
  fold_left (fun acc m =>
               let '(a, failed) := field (fst m) (snd m) (fst acc) in
               (a, snd acc || failed))
            members (old, false).

Definition decodeStruct {A : Type} (field : string -> value -> A -> A * bool)
    (v : value) (old : A) : A * bool :=
  match v with
  | Object members => decodeMembers field members old
  | Null => (old, false)
  | _ => (old, true)
  end.

Definition databaseField (k : string) (v : value) (c : config.DatabaseConfig)
    : config.DatabaseConfig * bool :=
  if EqualFold k "DataStore" then
    let '(s, failed) := decodeString v (config.DataStore c) in
    ({| config.DataStore := s; config.CacheStore := config.CacheStore c |}, failed)
  else if EqualFold k "CacheStore" then
    let '(s, failed) := decodeString v (config.CacheStore c) in
    ({| config.DataStore := config.DataStore c; config.CacheStore := s |}, failed)
  else (c, false).

Definition masterField (k : string) (v : value) (c : config.MasterConfig)
    : config.MasterConfig * bool :=
  if EqualFold k "MetaTimeout" then
    let '(d, failed) := decodeDuration v (config.MetaTimeout c) in
    ({| config.MetaTimeout := d |}, failed)
  else (c, false).

Definition serverField (k : string) (v : value) (c : config.ServerConfig)
    : config.ServerConfig * bool :=
  if EqualFold k "CacheExpire" then
    let '(d, failed) := decodeDuration v (config.CacheExpire c) in
    ({| config.CacheExpire := d |}, failed)
  else (c, false).

Definition configField (k : string) (v : value) (c : config.Config)
    : config.Config * bool :=
  if EqualFold k "Database" then
    let '(d, failed) := decodeStruct databaseField v (config.Database c) in
    ({| config.Database := d; config.Master := config.Master c;
        config.Server := config.Server c |}, failed)
  else if EqualFold k "Master" then
    let '(m, failed) := decodeStruct masterField v (config.Master c) in
    ({| config.Database := config.Database c; config.Master := m;
        config.Server := config.Server c |}, failed)
  else if EqualFold k "Server" then
    let '(sv, failed) := decodeStruct serverField v (config.Server c) in
    ({| config.Database := config.Database c; config.Master := config.Master c;
        config.Server := sv |}, failed)
  else (c, false).

(** [json.Unmarshal(data, &s.GorseConfig)], where [s.GorseConfig] is a
    pointer to the configuration, as the documentation of [encoding/json]
    describes it. The text is checked first: when it is not valid JSON
    nothing is stored and a syntax error is returned. The literal [null] sets
    the pointer to nil, without error. Any other text is decoded into the
    struct that the pointer points to, a zero one being allocated when the
    pointer is nil: only the fields that the text has a member for are set;
    a value unfit for its field is skipped, decoding goes on, and an
    [UnmarshalTypeError] is returned at the end. *)
Definition Unmarshal (data : text) (target : option config.Config)
    : option config.Config * option errors.error :=
  match data with
  | None => (target, Some (errors.Other "json: syntax error"))
  | Some Null => (None, None)
  | Some v =>
      let '(cfg', failed) := decodeStruct configField v (default config.zero target) in
      (Some cfg',
       if failed then Some (errors.Other "json: cannot unmarshal value into Go struct field")
       else None)
  end.

End json.

(** ** The server: [server.Server] *)

Inductive event : Type :=
| Rpc (method : rpcMethod) (info : NodeInfo)
| OpenData (addr : string)
| OpenCache (addr : string)
| Sleep (d : time.Duration)
| WriteLocalCache (path name : string)
| Println (items : list cache.Scored)
| Log (lvl : level) (msg : string).

(** [protocol.Meta], as far as [Sync] reads it. *)
Record Meta : Type := { Config : json.text }.

(** The fields of [RestServer] that [Server] and the caches use; the struct
    is declared outside the files at hand. A client field holds an interface
    value, which may be nil ([None]). [GorseConfig] is a pointer to the
    configuration, which [json.Unmarshal] can set to nil ([None]). The two
    caches point back to the server they belong to, so they are kept beside
    this record and take the server's client as an argument. *)
Record RestServer : Type := {
  DataClient : option data.Database;
  CacheClient : option cache.Database;
  GorseConfig : option config.Config;
  HttpHost : string;
  HttpPort : Z
}.

(** [Server] without its RPC channel [masterClient], whose answers are in
    [tickEnv]. *)
Record Server : Type := {
  rest : RestServer;
  cachePath : string;
  dataPath : string;
  serverName : string;
  masterHost : string;
  masterPort : Z;
  testMode : bool;
  cacheFile : string
}.

Definition withRest (r : RestServer) (s : Server) : Server :=
  {| rest := r; cachePath := cachePath s; dataPath := dataPath s;
     serverName := serverName s; masterHost := masterHost s;
     masterPort := masterPort s; testMode := testMode s;
     cacheFile := cacheFile s |}.

Definition withGorseConfig (c : option config.Config) (s : Server) : Server :=
  withRest {| DataClient := DataClient (rest s); CacheClient := CacheClient (rest s);
              GorseConfig := c; HttpHost := HttpHost (rest s);
              HttpPort := HttpPort (rest s) |} s.

Definition withDataClient (d : option data.Database) (s : Server) : Server :=
  withRest {| DataClient := d; CacheClient := CacheClient (rest s);
              GorseConfig := GorseConfig (rest s); HttpHost := HttpHost (rest s);
              HttpPort := HttpPort (rest s) |} s.

Definition withCacheClient (c : option cache.Database) (s : Server) : Server :=
  withRest {| DataClient := DataClient (rest s); CacheClient := c;
              GorseConfig := GorseConfig (rest s); HttpHost := HttpHost (rest s);
              HttpPort := HttpPort (rest s) |} s.

Definition withDataPath (p : string) (s : Server) : Server :=
  {| rest := rest s; cachePath := cachePath s; dataPath := p;
     serverName := serverName s; masterHost := masterHost s;
     masterPort := masterPort s; testMode := testMode s;
     cacheFile := cacheFile s |}.

Definition withCachePath (p : string) (s : Server) : Server :=
  {| rest := rest s; cachePath := p; dataPath := dataPath s;
     serverName := serverName s; masterHost := masterHost s;
     masterPort := masterPort s; testMode := testMode s;
     cacheFile := cacheFile s |}.

Definition withServerName (n : string) (s : Server) : Server :=
  {| rest := rest s; cachePath := cachePath s; dataPath := dataPath s;
     serverName := n; masterHost := masterHost s;
     masterPort := masterPort s; testMode := testMode s;
     cacheFile := cacheFile s |}.

(** What the outside world answers during one pass of the loop of [Sync]:
    the master to [GetMeta], and the two [Open] functions. *)
Record tickEnv : Type := {
  getMeta : NodeInfo -> result Meta;
  dataOpen : string -> option data.Database * option errors.error;
  cacheOpen : string -> option cache.Database * option errors.error
}.

(** One step of the loop body: the state it leaves, what it did, and whether
    it jumps to the [sleep] label. *)
Definition step : Type := Server * list event * bool.

(** [Sync], "connect to cache store", where [s.GorseConfig] points to
    [cfg]. *)
Definition connectCacheStore (env : tickEnv) (cfg : config.Config) (s : Server) : step :=
  let addr := config.CacheStore (config.Database cfg) in
  if String.eqb (cachePath s) addr then (s, [], false)
  else
    let '(client, err) := cacheOpen env addr in
    let s1 := withCacheClient client s in
    let did := [Log Info "connect cache store"; OpenCache addr] in
    match err with
    | Some _ => (s1, did ++ [Log Error "failed to connect cache store"], true)
    | None => (withCachePath addr s1, did, false)
    end.

(** [Sync], "connect to data store", where [s.GorseConfig] points to
    [cfg]. *)
Definition connectDataStore (env : tickEnv) (cfg : config.Config) (s : Server) : step :=
  let addr := config.DataStore (config.Database cfg) in
  if String.eqb (dataPath s) addr then (s, [], false)
  else
    let '(client, err) := dataOpen env addr in
    let s1 := withDataClient client s in
    let did := [Log Info "connect data store"; OpenData addr] in
    match err with
    | Some _ => (s1, did ++ [Log Error "failed to connect data store"], true)
    | None => (withDataPath addr s1, did, false)
    end.

(** The node's description that every [GetMeta] request carries. *)
Definition nodeInfo (s : Server) : NodeInfo :=
  {| NodeType_ := ServerNode; NodeName := serverName s;
     NodeHttpPort := HttpPort (rest s) |}.

(** What the deferred [base.CheckPanic()] does when [Sync] panics: it
    recovers and writes one error line; [Sync] then returns. The function is
    declared outside the files at hand. *)
Definition recovered : list event := [Log Error "panic recovered"].

(** The body of the loop of [Sync], from its top to the [sleep] label: the
    state it leaves, what it did, and whether it panicked. After a decoding
    without error, the comparison of [s.dataPath] with
    [s.GorseConfig.Database.DataStore] dereferences the configuration, and
    panics when the blob has set it to nil. *)
Definition syncPass (env : tickEnv) (s : Server) : Server * list event * bool :=
  let pull := [Rpc GetMeta (nodeInfo s)] in
  match getMeta env (nodeInfo s) with
  | Err _ => (s, pull ++ [Log Error "failed to get meta"], false)
  | Ok meta =>
      let '(cfg, err) := json.Unmarshal (Config meta) (GorseConfig (rest s)) in
      let s1 := withGorseConfig cfg s in
      match err with
      | Some _ => (s1, pull ++ [Log Error "failed to parse master config"], false)
      | None =>
          match cfg with
          | None => (s1, pull, true)
          | Some c =>
              let '(s2, did2, stop2) := connectDataStore env c s1 in
              if stop2 then (s2, pull ++ did2, false)
              else
                let '(s3, did3, _) := connectCacheStore env c s2 in
                (s3, pull ++ did2 ++ did3, false)
          end
      end
  end.

(** The body of the loop with, when it panics, the line that the recovery
    writes. *)
Definition syncBody (env : tickEnv) (s : Server) : Server * list event :=
  let '(s1, did, panicked) := syncPass env s in
  (s1, if panicked then did ++ recovered else did).

(** How a run of [Sync] that was observed for finitely many passes ends:
    it returned, or it is still in its loop. *)
Inductive outcome : Type :=
| Returned (s : Server) (did : list event)
| Running (s : Server) (did : list event).

Definition after (pre : list event) (o : outcome) : outcome :=
  match o with
  | Returned s did => Returned s (pre ++ did)
  | Running s did => Running s (pre ++ did)
  end.

(** The loop of [Sync], one pass for each answer of the outside world that
    is given. A pass that panics ends [Sync]; so does, outside test mode, the
    [time.Sleep(s.GorseConfig.Master.MetaTimeout)] of a server without
    configuration. *)
Fixpoint syncLoop (envs : list tickEnv) (s : Server) : outcome :=
  match envs with
  | [] => Running s []
  | env :: envs' =>
      let '(s1, did, panicked) := syncPass env s in
      if panicked then Returned s1 (did ++ recovered)
      else if testMode s1 then Returned s1 did
      else
        match GorseConfig (rest s1) with
        | None => Returned s1 (did ++ recovered)
        | Some cfg =>
            after (did ++ [Sleep (config.MetaTimeout (config.Master cfg))])
                  (syncLoop envs' s1)
        end
  end.

(** [Server.Sync]. Its first statement logs
    [s.GorseConfig.Master.MetaTimeout], which panics on a server without
    configuration, before anything is logged. *)
Definition Sync (envs : list tickEnv) (s : Server) : outcome :=
  match GorseConfig (rest s) with
  | None => Returned s recovered
  | Some _ => after [Log Info "start meta sync"] (syncLoop envs s)
  end.

(** ** The start of [Server.Serve]: the node's name *)

(** The persisted state [LocalCache], as far as [Serve] reads it. *)
Record LocalCache : Type := { path : string; ServerName : string }.

(** What the outside world answers while [Serve] settles the name: the
    outcome of [LoadLocalCache], which returns a pointer to the state, nil
    ([None]) when the file cannot be decoded, and an error; the name
    [base.GetRandomName] draws; and the outcome of [WriteLocalCache]. *)
Record bootEnv : Type := {
  loadLocalCache : string -> option LocalCache * option errors.error;
  randomName : string;
  writeLocalCache : LocalCache -> option errors.error
}.

(** [Logger().Fatal] ends the process: [Exited]. A nil state makes [Serve]
    panic, and nothing recovers: [Crashed]. Otherwise [Serve] goes on, with
    the name set: [Named]. *)
Inductive booted : Type :=
| Exited (did : list event)
| Crashed (did : list event)
| Named (s : Server) (did : list event).

(** [Server.Serve] from "open local store" to the "start server" log line.
    With a nil state, the error branch panics on [state.path] before its
    line is logged, and without error the test of [state.ServerName]
    panics. *)
Definition Serve_openLocalStore (env : bootEnv) (s : Server) : booted :=
  let '(loaded, err) := loadLocalCache env (cacheFile s) in
  match loaded with
  | None => Crashed []
  | Some state =>
      let logged :=
        match err with
        | Some _ => [Log Error "failed to connect local store"]
        | None => []
        end in
      if String.eqb (ServerName state) "" then
        let state1 := {| path := path state; ServerName := randomName env |} in
        let written := [WriteLocalCache (path state1) (ServerName state1)] in
        match writeLocalCache env state1 with
        | Some _ => Exited (logged ++ written ++ [Log Fatal "failed to write meta"])
        | None =>
            Named (withServerName (ServerName state1) s)
                  (logged ++ written ++ [Log Info "start server"])
        end
      else
        Named (withServerName (ServerName state) s) (logged ++ [Log Info "start server"])
  end.

(** ** The popular items cache *)

Module PopularItemsCache.

(** [PopularItemsCache] without its mutex and without the pointer to the
    server, whose [CacheClient] is an argument of the methods. *)
Record t : Type := {
  scores : gmap string float64;
  test : bool
}.

(** The cache as [NewPopularItemsCache] makes it. *)
Definition New : t := {| scores := ∅; test := false |}.

(** [newPopularItemsCacheForTest] *)
Definition newForTest : t := {| scores := ∅; test := true |}.

(** The loop [for _, item := range items { scores[item.Id] = item.Score }]
    on a fresh map. *)
Definition collect (items : list cache.Scored) : gmap string float64 :=
  fold_left (fun m item => <[cache.Id item := cache.Score item]> m) items ∅.

(** [PopularItemsCache.sync] *)
Definition sync (client : cache.Database) (sc : t) : t * list event :=
  match cache.GetSorted client (cache.Key [cache.PopularItems]) 0 (-1) with
  | Err err =>
      (sc, if errors.IsNotAssigned err then []
           else [Log Error "failed to get popular items"])
  | Ok items => ({| scores := collect items; test := test sc |}, [])
  end.

(** [PopularItemsCache.GetSortedScore]: the cache it leaves, what it did,
    and the score it returns. *)
Definition GetSortedScore (client : cache.Database) (sc : t) (member : string)
    : t * list event * float64 :=
  let '(sc1, did) := if test sc then sync client sc else (sc, []) in
  (sc1, did, default float64_zero (scores sc1 !! member)).

End PopularItemsCache.

(** ** The hidden items cache *)

Module HiddenItemsCache.

(** [HiddenItemsCache] without its mutex and without the pointer to the
    server. *)
Record t : Type := {
  hiddenItems : gset string;
  updateTime : time.Time;
  test : bool
}.

(** The cache as [NewHiddenItemsCache] makes it. *)
Definition New : t :=
  {| hiddenItems := ∅; updateTime := time.Zero; test := false |}.

(** [strset.New(items...)] *)
Definition strsetNew (items : list string) : gset string := list_to_set items.

(** [set.Has(x)] *)
Definition Has (set : gset string) (x : string) : bool := bool_decide (x ∈ set).

(** [HiddenItemsCache.sync], run at the instant [now]. *)
Definition sync (client : cache.Database) (now : time.Time) (hc : t) : t * list event :=
  let ts := now in
  match cache.GetSortedByScore client cache.HiddenItemsV2
          NegInf (float64_of_int (time.Unix ts)) with
  | Err err =>
      (hc, if errors.IsNotAssigned err then []
           else [Log Error "failed to load hidden items"])
  | Ok score =>
      ({| hiddenItems := strsetNew (cache.RemoveScores score);
          updateTime := ts; test := test hc |},
       if (0 <? length score)%nat then [Println score] else [])
  end.

(** [HiddenItemsCache.IsHidden], run at the instant [now]. *)
Definition IsHidden (client : cache.Database) (now : time.Time) (hc : t)
    (members : list string) : option (list bool) * option errors.error :=
  let hiddenItems := hiddenItems hc in
  let updateTime := updateTime hc in
  match cache.GetSortedByScore client cache.HiddenItemsV2
          (float64_of_int (time.Unix updateTime))
          (float64_of_int (time.Unix now)) with
  | Err err => (None, Some (errors.Trace err))
  | Ok score =>
      let deltaHiddenItems := strsetNew (cache.RemoveScores score) in
      (Some (map (fun t => Has hiddenItems t || Has deltaHiddenItems t) members), None)
  end.

End HiddenItemsCache.

(** ** Vocabulary of the properties *)

(** [client] answers the score-range queries on [key] as a sorted collection
    that holds [content] does: every query succeeds with exactly the entries
    whose score lies within the bounds. *)
Definition servesByScore (client : cache.Database) (key : string)
    (content : list cache.Scored) : Prop :=
  forall lo hi, exists l,
    cache.GetSortedByScore client key lo hi = Ok l /\
    forall x, In x l <-> In x content /\ cache.inRange lo hi x = true.

(** Two scores are the same number. *)
Definition float64_same (a b : float64) : Prop :=
  float64_le a b = true /\ float64_le b a = true.

(** In [content], the score of [item], its "became hidden" timestamp, is
    [stamp], wherever [item] has an entry. *)
Definition stampedAt (content : list cache.Scored) (item : string) (stamp : float64) : Prop :=
  forall x, In x content -> cache.Id x = item -> float64_same (cache.Score x) stamp.

(** The instant at the start of the Unix second [T]. *)
Definition atSecond (T : Z) : time.Time := T * time.Second.

Definition eventsOf (o : outcome) : list event :=
  match o with
  | Returned _ did => did
  | Running _ did => did
  end.

Definition hasReturned (o : outcome) : bool :=
  match o with
  | Returned _ _ => true
  | Running _ _ => false
  end.

(** The requests sent to the coordinator, in order. *)
Fixpoint requests (did : list event) : list (rpcMethod * NodeInfo) :=
  match did with
  | [] => []
  | Rpc m info :: rest => (m, info) :: requests rest
  | _ :: rest => requests rest
  end.

Definition isSleep (e : event) : bool :=
  match e with Sleep _ => true | _ => false end.

Definition isOpenData (e : event) : bool :=
  match e with OpenData _ => true | _ => false end.

Definition isOpenCache (e : event) : bool :=
  match e with OpenCache _ => true | _ => false end.

Definition isWrite (e : event) : bool :=
  match e with WriteLocalCache _ _ => true | _ => false end.

Definition isErrorLog (e : event) : bool :=
  match e with Log Error _ => true | _ => false end.

(** How many events of a kind a run did. *)
Definition count (kind : event -> bool) (did : list event) : nat :=
  length (List.filter kind did).

Definition bootEvents (b : booted) : list event :=
  match b with
  | Exited did => did
  | Crashed did => did
  | Named _ did => did
  end.

Definition hasExited (b : booted) : bool :=
  match b with
  | Exited _ => true
  | Crashed _ => false
  | Named _ _ => false
  end.

(** The name [Serve] goes on with, when it goes on. *)
Definition nameOf (b : booted) : option string :=
  match b with
  | Exited _ => None
  | Crashed _ => None
  | Named s _ => Some (serverName s)
  end.

(** The same outside world, except that [LoadLocalCache] reports no error
    for the state it returns. *)
Definition loadedCleanly (env : bootEnv) : bootEnv :=
  {| loadLocalCache p := (fst (loadLocalCache env p), None);
     randomName := randomName env;
     writeLocalCache := writeLocalCache env |}.

(** The data store step of a pass does not jump to [sleep]: there is nothing
    to open, or the open succeeds. *)
Definition dataStepPasses (env : tickEnv) (s : Server) (cfg : config.Config) : Prop :=
  dataPath s = config.DataStore (config.Database cfg) \/
  snd (dataOpen env (config.DataStore (config.Database cfg))) = None.

(** The member [k: v] of the top object of a blob leaves the setting [name]
    of the section [section] alone: it selects another section, or the object
    it gives for the section has no member for the setting. *)
Definition sparesSetting (section name : string) (k : string) (v : json.value) : Prop :=
  json.EqualFold k section = true ->
  forall inner, v = json.Object inner ->
  forall k' v', In (k', v') inner -> json.EqualFold k' name = false.

(** The object [members] carries no value for the setting [name] of the
    section [section] of the configuration. *)
Definition carriesNo (section name : string) (members : list (string * json.value)) : Prop :=
  forall k v, In (k, v) members -> sparesSetting section name k v.

(** Inputs of the examples for the hidden items cache: a store that holds
    nothing, and a store in which item ["x"] became hidden at second 100. *)
Definition emptyStore : cache.Database := cache.memory (fun _ => []).

Definition hiddenX : list cache.Scored :=
  [ {| cache.Id := "x"; cache.Score := float64_of_int 100 |} ].

Definition storeWithX : cache.Database :=
  cache.memory (fun key => if String.eqb key cache.HiddenItemsV2 then hiddenX else []).

(** Inputs of the examples for the popular items cache: the source pairs
    ["a"] with score 5 and ["b"] with score 3, and a store that holds them. *)
Definition sourceAB : list cache.Scored :=
  [ {| cache.Id := "a"; cache.Score := Fin 5 |};
    {| cache.Id := "b"; cache.Score := Fin 3 |} ].

Definition storeWithAB : cache.Database :=
  cache.memory (fun key => if String.eqb key cache.PopularItems then sourceAB else []).

(** Inputs of the examples for [Sync]: a server that holds no store
    connection yet, blobs as the master may send them, and the answers of the
    outside world during one pass. *)
Definition tenSeconds : time.Duration := 10 * time.Second.

Definition exampleConfig (dataStore cacheStore : string) : config.Config :=
  {| config.Database := {| config.DataStore := dataStore; config.CacheStore := cacheStore |};
     config.Master := {| config.MetaTimeout := tenSeconds |};
     config.Server := {| config.CacheExpire := tenSeconds |} |}.

Definition exampleServer (test : bool) : Server :=
  {| rest := {| DataClient := Some data.NoDatabase;
                CacheClient := Some (cache.failing (errors.Other "no database"));
                GorseConfig := Some (exampleConfig "" "");
                HttpHost := "127.0.0.1"; HttpPort := 8087 |};
     cachePath := ""; dataPath := "";
     serverName := "node-1"; masterHost := "127.0.0.1"; masterPort := 8086;
     testMode := test; cacheFile := "/tmp/gorse" |}.

(** A blob that carries both store addresses and nothing else. *)
Definition blobStores (dataStore cacheStore : string) : json.text :=
  Some (json.Object
          [("Database",
            json.Object [("DataStore", json.String dataStore);
                         ("CacheStore", json.String cacheStore)])]).

(** The master answers with [blob]; opening a store succeeds or fails as
    [dataUp] and [cacheUp] tell, and a failed open returns a nil client. *)
Definition exampleEnv (blob : json.text) (dataUp cacheUp : bool) : tickEnv :=
  {| getMeta _ := Ok {| Config := blob |};
     dataOpen addr :=
       if dataUp then (Some (data.Conn addr 1), None)
       else (None, Some (errors.Other "cannot open data store"));
     cacheOpen addr :=
       if cacheUp then (Some emptyStore, None)
       else (None, Some (errors.Other "cannot open cache store")) |}.

(** The master does not answer. *)
Definition masterDown : tickEnv :=
  {| getMeta _ := Err (errors.Other "connection refused");
     dataOpen addr := (Some (data.Conn addr 1), None);
     cacheOpen addr := (Some emptyStore, None) |}.

(** A server that holds connections to the two given addresses. *)
Definition connectedServer (dataStore cacheStore : string) (test : bool) : Server :=
  {| rest := {| DataClient := Some (data.Conn dataStore 0);
                CacheClient := Some emptyStore;
                GorseConfig := Some (exampleConfig dataStore cacheStore);
                HttpHost := "127.0.0.1"; HttpPort := 8087 |};
     cachePath := cacheStore; dataPath := dataStore;
     serverName := "node-1"; masterHost := "127.0.0.1"; masterPort := 8086;
     testMode := test; cacheFile := "/tmp/gorse" |}.

(** A blob that carries only the interval between two pulls. *)
Definition blobInterval (d : time.Duration) : json.text :=
  Some (json.Object [("Master", json.Object [("MetaTimeout", json.Integer d)])]).

(** A blob that carries a data store address and then, for the interval, a
    string where a number is due. *)
Definition blobIllTyped (dataStore : string) : json.text :=
  Some (json.Object
          [("Database", json.Object [("DataStore", json.String dataStore)]);
           ("Master", json.Object [("MetaTimeout", json.String "soon")])]).

(** A blob that carries all four settings. *)
Definition blobFull (dataStore cacheStore : string) (metaTimeout cacheExpire : time.Duration)
    : json.value :=
  json.Object
    [("Database", json.Object [("DataStore", json.String dataStore);
                               ("CacheStore", json.String cacheStore)]);
     ("Master", json.Object [("MetaTimeout", json.Integer metaTimeout)]);
     ("Server", json.Object [("CacheExpire", json.Integer cacheExpire)])].

(** Inputs of the examples for the start of [Serve]: no identity on disk, a
    drawn name, and a disk that takes the write or refuses it. *)
Definition firstStart (diskWritable : bool) : bootEnv :=
  {| loadLocalCache p :=
       (Some {| path := p; ServerName := "" |},
        Some (errors.Other "file does not exist"));
     randomName := "brave_turing";
     writeLocalCache _ :=
       if diskWritable then None else Some (errors.Other "read-only file system") |}.

(** ** Construction and the refresh goroutines *)


(** How a refresh goroutine that was observed for finitely many turns
    stands: still in its loop, or ended by a panic, which nothing in the
    goroutine recovers from. *)
Inductive refreshing (C : Type) : Type :=
| Alive (c : C) (did : list event)
| Panicked (did : list event).
Arguments Alive {C} c did.
Arguments Panicked {C} did.

Definition andThen {C : Type} (pre : list event) (r : refreshing C) : refreshing C :=
  match r with
  | Alive c did => Alive c (pre ++ did)
  | Panicked did => Panicked (pre ++ did)
  end.

(** The goroutine that [NewPopularItemsCache] starts: [sync], a debug line,
    a sleep of [CacheExpire], for ever. Each turn reads the server it points
    to; [turns] lists the server as each turn finds it. A method call on a
    nil client panics, and so does, after [sync], the reading of
    [s.GorseConfig.Server.CacheExpire] for the debug line when the
    configuration is nil. *)
Fixpoint popularLoop (turns : list RestServer) (sc : PopularItemsCache.t)
    : refreshing PopularItemsCache.t :=
  match turns with
  | [] => Alive sc []
  | s :: turns' =>
      match CacheClient s with
      | None => Panicked []
      | Some client =>
          let '(sc1, did) := PopularItemsCache.sync client sc in
          match GorseConfig s with
          | None => Panicked did
          | Some cfg =>
              andThen (did ++ [Log Debug "refresh server side popular items cache";
                               Sleep (config.CacheExpire (config.Server cfg))])
                      (popularLoop turns' sc1)
          end
      end
  end.

(** The goroutine that [NewHiddenItemsCache] starts; each turn comes with
    the instant [time.Now()] reads. *)
Fixpoint hiddenLoop (turns : list (RestServer * time.Time)) (hc : HiddenItemsCache.t)
    : refreshing HiddenItemsCache.t :=
  match turns with
  | [] => Alive hc []
  | (s, now) :: turns' =>
      match CacheClient s with
      | None => Panicked []
      | Some client =>
          let '(hc1, did) := HiddenItemsCache.sync client now hc in
          match GorseConfig s with
          | None => Panicked did
          | Some cfg =>
              andThen (did ++ [Log Debug "refresh server side hidden items cache";
                               Sleep (config.CacheExpire (config.Server cfg))])
                      (hiddenLoop turns' hc1)
          end
      end
  end.

(** ** Vocabulary of the further properties *)

(** [a < b] on [float64]. *)
Definition float64_lt (a b : float64) : Prop := float64_le b a = false.

(** The snapshot of [hc] holds every entry of [content] that is older than
    the second of the last refresh, so that the delta query need not find
    it. *)
Definition snapshotCovers (hc : HiddenItemsCache.t) (content : list cache.Scored) : Prop :=
  forall x, In x content ->
    float64_lt (cache.Score x)
      (float64_of_int (time.Unix (HiddenItemsCache.updateTime hc))) ->
    cache.Id x ∈ HiddenItemsCache.hiddenItems hc.

(** The items of the last turn of [turns] whose query for the popular items
    succeeded, if there is one. *)
Definition lastPopular (turns : list RestServer) : option (list cache.Scored) :=
  fold_left
    (fun acc s =>
       match CacheClient s with
       | Some client =>
           match cache.GetSorted client (cache.Key [cache.PopularItems]) 0 (-1) with
           | Ok items => Some items
           | Err _ => acc
           end
       | None => acc
       end)
    turns None.

(** The instant and the entries of the last turn of [turns] whose query for
    the hidden items succeeded, if there is one. *)
Definition lastHidden (turns : list (RestServer * time.Time))
    : option (time.Time * list cache.Scored) :=
  fold_left
    (fun acc turn =>
       match CacheClient (fst turn) with
       | Some client =>
           match cache.GetSortedByScore client cache.HiddenItemsV2 NegInf
                   (float64_of_int (time.Unix (snd turn))) with
           | Ok score => Some (snd turn, score)
           | Err _ => acc
           end
       | None => acc
       end)
    turns None.

Definition stillAlive {C : Type} (r : refreshing C) : bool :=
  match r with
  | Alive _ _ => true
  | Panicked _ => false
  end.

Definition loopEvents {C : Type} (r : refreshing C) : list event :=
  match r with
  | Alive _ did => did
  | Panicked did => did
  end.

(** The server that the master's answers leave a run of [Sync] with. *)
Definition serverOf (o : outcome) : Server :=
  match o with
  | Returned s _ => s
  | Running s _ => s
  end.

(** The master cannot be reached during the pass. *)
Definition pullFails (env : tickEnv) : Prop :=
  forall info, exists e, getMeta env info = Err e.

Definition isDebugLog (e : event) : bool :=
  match e with Log Debug _ => true | _ => false end.

(** Inputs of the further examples. *)
Definition hiddenXY : list cache.Scored :=
  [ {| cache.Id := "x"; cache.Score := float64_of_int 100 |};
    {| cache.Id := "y"; cache.Score := Fin (2011 # 10) |} ].

Definition storeWithXY : cache.Database :=
  cache.memory (fun key => if String.eqb key cache.HiddenItemsV2 then hiddenXY else []).

Definition restWith (client : option cache.Database) : RestServer :=
  {| DataClient := Some data.NoDatabase; CacheClient := client;
     GorseConfig := Some (exampleConfig "" ""); HttpHost := "127.0.0.1";
     HttpPort := 8087 |}.

(** A failed open of the cache store returns a nil client. *)
Definition cacheDown : tickEnv :=
  exampleEnv (blobStores "" "redis://cache") true false.

(** The fields that a pass never writes. *)
Definition sameIdentity (s s' : Server) : Prop :=
  serverName s' = serverName s /\ masterHost s' = masterHost s /\
  masterPort s' = masterPort s /\ testMode s' = testMode s /\
  cacheFile s' = cacheFile s /\
  HttpHost (rest s') = HttpHost (rest s) /\ HttpPort (rest s') = HttpPort (rest s).

(** The pass panics; the recovery then ends [Sync]. *)
Definition passPanics (env : tickEnv) (s : Server) : bool := snd (syncPass env s).

(** The master answers the node that [info] describes with the blob
    [null]. *)
Definition pullsNull (info : NodeInfo) (env : tickEnv) : Prop :=
  exists meta, getMeta env info = Ok meta /\ Config meta = Some json.Null.

(** Item ["x"] with a timestamp that is not a whole second: 100.5. *)
Definition hiddenHalf : list cache.Scored :=
  [ {| cache.Id := "x"; cache.Score := Fin (201 # 2) |} ].

Definition storeHalf : cache.Database :=
  cache.memory (fun key => if String.eqb key cache.HiddenItemsV2 then hiddenHalf else []).

Definition halfSecond : time.Duration := 500000000.

(** The file of the local cache is there but cannot be decoded:
    [LoadLocalCache] returns a nil state and the error. *)
Definition corruptFile : bootEnv :=
  {| loadLocalCache _ := (None, Some (errors.Traced (errors.Other "unexpected EOF")));
     randomName := "brave_turing";
     writeLocalCache _ := None |}.

(** The master answers with the blob [null]. *)
Definition nullBlob : tickEnv := exampleEnv (Some json.Null) true true.

(** The letter U+017F, long s, as its two bytes in UTF-8, and a blob whose
    key for the section of the stores is written with it. *)
Definition longS : string :=
  String.String (ascii_of_nat 197) (String.String (ascii_of_nat 191) EmptyString).

Definition blobLongS (dataStore : string) : json.text :=
  Some (json.Object
          [(String.append "Databa" (String.append longS "e"),
            json.Object [("DataStore", json.String dataStore)])]).

(** * Properties *)

(** ** Scores and instants *)

Lemma float64_le_of_int (a b : Z) :
  float64_le (float64_of_int a) (float64_of_int b) = true <-> a <= b.
Proof.
  unfold float64_of_int; simpl.
  rewrite Qle_bool_iff, <- Zle_Qle. tauto.
Qed.

Lemma float64_le_trans (a b c : float64) :
  float64_le a b = true -> float64_le b c = true -> float64_le a c = true.
Proof.
  destruct a as [|x|], b as [|y|], c as [|z|]; simpl; try congruence.
  rewrite !Qle_bool_iff. apply Qle_trans.
Qed.

Lemma Unix_ge (T : Z) (now : time.Time) : atSecond T <= now -> T <= time.Unix now.
Proof.
  unfold atSecond, time.Unix, time.Second. intros H.
  apply Z.div_le_lower_bound; lia.
Qed.

Lemma Unix_lt (T : Z) (now : time.Time) : now < atSecond T -> time.Unix now < T.
Proof.
  unfold atSecond, time.Unix, time.Second. intros H.
  apply Z.div_lt_upper_bound; lia.
Qed.

(** ** Sets of identifiers *)

Lemma Has_strsetNew (l : list string) (x : string) :
  HiddenItemsCache.Has (HiddenItemsCache.strsetNew l) x = true <-> In x l.
Proof.
  unfold HiddenItemsCache.Has, HiddenItemsCache.strsetNew.
  rewrite bool_decide_eq_true, elem_of_list_to_set, list_elem_of_In. tauto.
Qed.

Lemma Has_strsetNew_false (l : list string) (x : string) :
  ~ In x l -> HiddenItemsCache.Has (HiddenItemsCache.strsetNew l) x = false.
Proof.
  intros H. destruct (HiddenItemsCache.Has _ x) eqn:E; [| reflexivity].
  apply Has_strsetNew in E. contradiction.
Qed.

Lemma In_RemoveScores (l : list cache.Scored) (x : string) :
  In x (cache.RemoveScores l) <-> exists e, In e l /\ cache.Id e = x.
Proof.
  unfold cache.RemoveScores. rewrite in_map_iff.
  split; intros [e [H1 H2]]; exists e; tauto.
Qed.

(** ** The store in memory honours the contract of score-range queries *)

Lemma In_insertSorted (x y : cache.Scored) (l : list cache.Scored) :
  In y (cache.insertSorted x l) <-> y = x \/ In y l.
Proof.
  induction l as [|z l IH]; simpl.
  - intuition congruence.
  - destruct (float64_le _ _); simpl; [intuition congruence|].
    rewrite IH. intuition congruence.
Qed.

Lemma In_sortByScore (y : cache.Scored) (l : list cache.Scored) :
  In y (cache.sortByScore l) <-> In y l.
Proof.
  induction l as [|x l IH]; simpl; [tauto|].
  rewrite In_insertSorted, IH. intuition congruence.
Qed.

Lemma memory_servesByScore (db : string -> list cache.Scored) (key : string) :
  servesByScore (cache.memory db) key (db key).
Proof.
  intros lo hi. eexists. split; [reflexivity|].
  intros x. rewrite filter_In, In_sortByScore. tauto.
Qed.

(** ** The hidden items cache across a refresh *)

Lemma sync_served (client : cache.Database) (content : list cache.Scored)
    (now : time.Time) (hc : HiddenItemsCache.t) :
  servesByScore client cache.HiddenItemsV2 content ->
  exists l,
    (forall x, In x l <->
       In x content /\ cache.inRange NegInf (float64_of_int (time.Unix now)) x = true) /\
    fst (HiddenItemsCache.sync client now hc) =
      {| HiddenItemsCache.hiddenItems :=
           HiddenItemsCache.strsetNew (cache.RemoveScores l);
         HiddenItemsCache.updateTime := now;
         HiddenItemsCache.test := HiddenItemsCache.test hc |}.
Proof.
  intros Hs.
  destruct (Hs NegInf (float64_of_int (time.Unix now))) as [l [Hq Hl]].
  exists l. split; [exact Hl|].
  unfold HiddenItemsCache.sync. rewrite Hq. reflexivity.
Qed.

Lemma float64_lt_le (a b : float64) : float64_lt a b -> float64_le a b = true.
Proof.
  unfold float64_lt. destruct a as [|x|], b as [|y|]; simpl; try congruence.
  intros H. apply Qle_bool_iff. destruct (Qlt_le_dec x y) as [Hlt | Hle].
  - apply Qlt_le_weak. exact Hlt.
  - apply Qle_bool_iff in Hle. congruence.
Qed.

(** The claim C1 as it is worded fails for a timestamp that is not a whole
    second. The item became hidden at 100.5, the last full refresh ran five
    seconds before, at 95.5 s, and a call at 100.7 s, after the timestamp,
    answers [false]: the delta query ends at the second 100. *)
Lemma C1_counterexample :
  let refresh := atSecond 95 + halfSecond in
  let now := atSecond 100 + 700000000 in
  let hc := fst (HiddenItemsCache.sync emptyStore refresh HiddenItemsCache.New) in
  cache.GetSortedByScore storeHalf cache.HiddenItemsV2 NegInf PosInf
    = Ok [ {| cache.Id := "x"; cache.Score := Fin (201 # 2) |} ] /\
  HiddenItemsCache.updateTime hc = refresh /\
  atSecond 100 + halfSecond <= now /\
  HiddenItemsCache.IsHidden storeHalf now hc ["x"] = (Some [false], None).
Proof. vm_compute. repeat split. discriminate. Qed.

(** C1, amended. The item's "became hidden" timestamp is [stamp], a score of
    any kind, and the last full refresh ran in a Unix second before it, five
    seconds before for one. Then [IsHidden] on that item answers [true] when
    called in a Unix second that is not before [stamp], the store holding the
    item, and [false] when called in a Unix second before [stamp], or as long
    as the store does not hold the item. When [stamp] is a whole second [T],
    the first are the instants from [T] on and the second the instants before
    [T]. An item that the store held at the refresh, dated up to the second
    of the refresh, is answered [true] from the snapshot. *)
Theorem C1_IsHidden_across_refresh
    (atRefresh atCall : cache.Database) (content0 content1 : list cache.Scored)
    (item : string) (stamp : float64) (hc0 : HiddenItemsCache.t)
    (refresh now : time.Time) :
  servesByScore atRefresh cache.HiddenItemsV2 content0 ->
  servesByScore atCall cache.HiddenItemsV2 content1 ->
  stampedAt content0 item stamp ->
  stampedAt content1 item stamp ->
  float64_lt (float64_of_int (time.Unix refresh)) stamp ->
  let hc := fst (HiddenItemsCache.sync atRefresh refresh hc0) in
  let call := float64_of_int (time.Unix now) in
  (float64_le stamp call = true ->
   (exists x, In x content1 /\ cache.Id x = item) ->
   HiddenItemsCache.IsHidden atCall now hc [item] = (Some [true], None)) /\
  (float64_lt call stamp ->
   HiddenItemsCache.IsHidden atCall now hc [item] = (Some [false], None)) /\
  (~ (exists x, In x content1 /\ cache.Id x = item) ->
   HiddenItemsCache.IsHidden atCall now hc [item] = (Some [false], None)) /\
  (forall T : Z, float64_same stamp (float64_of_int T) ->
     (atSecond T <= now -> float64_le stamp call = true) /\
     (now < atSecond T -> float64_lt call stamp)) /\
  (forall earlier, In earlier content0 ->
     float64_le (cache.Score earlier) (float64_of_int (time.Unix refresh)) = true ->
     HiddenItemsCache.IsHidden atCall now hc [cache.Id earlier] = (Some [true], None)).
Proof.
  intros Hs0 Hs1 Hh0 Hh1 Hr hc call.
  destruct (sync_served atRefresh content0 refresh hc0 Hs0) as [l0 [Hl0 Hsync]].
  fold hc in Hsync.
  destruct (Hs1 (float64_of_int (time.Unix refresh)) (float64_of_int (time.Unix now)))
    as [l1 [Hq1 Hl1]].
  assert (Hcall : forall m,
            HiddenItemsCache.IsHidden atCall now hc [m] =
              (Some [HiddenItemsCache.Has (HiddenItemsCache.hiddenItems hc) m
                     || HiddenItemsCache.Has
                          (HiddenItemsCache.strsetNew (cache.RemoveScores l1)) m],
               None)).
  { intros m. unfold HiddenItemsCache.IsHidden.
    replace (HiddenItemsCache.updateTime hc) with refresh
      by (rewrite Hsync; reflexivity).
    rewrite Hq1. reflexivity. }
  assert (Hsnap : HiddenItemsCache.Has (HiddenItemsCache.hiddenItems hc) item = false).
  { rewrite Hsync. simpl. apply Has_strsetNew_false.
    rewrite In_RemoveScores. intros [x [Hx Hid]].
    apply Hl0 in Hx. destruct Hx as [Hx Hrange].
    destruct (Hh0 x Hx Hid) as [_ Hge].
    unfold cache.inRange in Hrange. apply andb_prop in Hrange.
    destruct Hrange as [_ Hhi].
    pose proof (float64_le_trans _ _ _ Hge Hhi) as Hc.
    unfold float64_lt in Hr. congruence. }
  split; [|split; [|split; [|split]]].
  - intros Hnow [x [Hx Hid]]. rewrite Hcall.
    assert (Hin : HiddenItemsCache.Has
                    (HiddenItemsCache.strsetNew (cache.RemoveScores l1)) item = true).
    { apply Has_strsetNew, In_RemoveScores. exists x. split; [|exact Hid].
      apply Hl1. split; [exact Hx|].
      destruct (Hh1 x Hx Hid) as [Hle Hge].
      unfold cache.inRange. apply andb_true_intro. split.
      - eapply float64_le_trans; [|exact Hge]. apply float64_lt_le. exact Hr.
      - eapply float64_le_trans; [exact Hle | exact Hnow]. }
    rewrite Hin, orb_true_r. reflexivity.
  - intros Hnow. rewrite Hcall.
    assert (Hdelta : HiddenItemsCache.Has
                       (HiddenItemsCache.strsetNew (cache.RemoveScores l1)) item = false).
    { apply Has_strsetNew_false.
      rewrite In_RemoveScores. intros [x [Hx Hid]].
      apply Hl1 in Hx. destruct Hx as [Hx Hrange].
      destruct (Hh1 x Hx Hid) as [_ Hge].
      unfold cache.inRange in Hrange. apply andb_prop in Hrange.
      destruct Hrange as [_ Hhi].
      pose proof (float64_le_trans _ _ _ Hge Hhi) as Hc.
      unfold float64_lt in Hnow. fold call in Hc. congruence. }
    rewrite Hsnap, Hdelta. reflexivity.
  - intros Habsent. rewrite Hcall.
    assert (Hdelta : HiddenItemsCache.Has
                       (HiddenItemsCache.strsetNew (cache.RemoveScores l1)) item = false).
    { apply Has_strsetNew_false.
      rewrite In_RemoveScores. intros [x [Hx Hid]].
      apply Hl1 in Hx. destruct Hx as [Hx _].
      apply Habsent. exists x. split; assumption. }
    rewrite Hsnap, Hdelta. reflexivity.
  - intros T [HsT HTs]. split.
    + intros Hnow. eapply float64_le_trans; [exact HsT|].
      apply float64_le_of_int. apply Unix_ge. exact Hnow.
    + intros Hnow. unfold float64_lt.
      destruct (float64_le stamp call) eqn:E; [|reflexivity].
      pose proof (float64_le_trans _ _ _ HTs E) as Hc.
      apply float64_le_of_int in Hc. apply Unix_lt in Hnow. lia.
  - intros earlier He Hle. rewrite Hcall.
    assert (Hin : HiddenItemsCache.Has (HiddenItemsCache.hiddenItems hc)
                    (cache.Id earlier) = true).
    { rewrite Hsync. simpl. apply Has_strsetNew, In_RemoveScores.
      exists earlier. split; [|reflexivity]. apply Hl0. split; [exact He|].
      unfold cache.inRange. simpl. exact Hle. }
    rewrite Hin. reflexivity.
Qed.

Lemma C1_witness :
  let hc := fst (HiddenItemsCache.sync emptyStore (atSecond 95) HiddenItemsCache.New) in
  let hcHalf :=
    fst (HiddenItemsCache.sync emptyStore (atSecond 95 + halfSecond) HiddenItemsCache.New) in
  HiddenItemsCache.IsHidden storeWithX (atSecond 100 + 300000000) hc ["x"]
    = (Some [true], None) /\
  HiddenItemsCache.IsHidden storeWithX (atSecond 100 - 1) hc ["x"]
    = (Some [false], None) /\
  HiddenItemsCache.IsHidden storeHalf (atSecond 101) hcHalf ["x"]
    = (Some [true], None) /\
  HiddenItemsCache.IsHidden storeHalf (atSecond 100 + 700000000) hcHalf ["x"]
    = (Some [false], None).
Proof.
  assert (H0 : servesByScore emptyStore cache.HiddenItemsV2 []).
  { exact (memory_servesByScore (fun _ => []) cache.HiddenItemsV2). }
  assert (H1 : servesByScore storeWithX cache.HiddenItemsV2 hiddenX).
  { exact (memory_servesByScore
             (fun key => if String.eqb key cache.HiddenItemsV2 then hiddenX else [])
             cache.HiddenItemsV2). }
  assert (Hh0 : stampedAt [] "x" (float64_of_int 100)).
  { intros x []. }
  assert (Hh1 : stampedAt hiddenX "x" (float64_of_int 100)).
  { intros x [<- | []] _. split; reflexivity. }
  assert (Hr : float64_lt (float64_of_int (time.Unix (atSecond 95))) (float64_of_int 100))
    by reflexivity.
  assert (H2 : servesByScore storeHalf cache.HiddenItemsV2 hiddenHalf).
  { exact (memory_servesByScore
             (fun key => if String.eqb key cache.HiddenItemsV2 then hiddenHalf else [])
             cache.HiddenItemsV2). }
  assert (Hh2 : stampedAt hiddenHalf "x" (Fin (201 # 2))).
  { intros x [<- | []] _. split; reflexivity. }
  assert (Hr2 : float64_lt (float64_of_int (time.Unix (atSecond 95 + halfSecond)))
                  (Fin (201 # 2)))
    by reflexivity.
  split; [|split; [|split]].
  - destruct (C1_IsHidden_across_refresh emptyStore storeWithX [] hiddenX "x"
                (float64_of_int 100) HiddenItemsCache.New (atSecond 95)
                (atSecond 100 + 300000000) H0 H1 Hh0 Hh1 Hr)
      as (Hfrom & _ & _ & Hwhole & _).
    apply Hfrom.
    + apply (Hwhole 100); [split; reflexivity | vm_compute; discriminate].
    + eexists. split; [left; reflexivity | reflexivity].
  - destruct (C1_IsHidden_across_refresh emptyStore storeWithX [] hiddenX "x"
                (float64_of_int 100) HiddenItemsCache.New (atSecond 95)
                (atSecond 100 - 1) H0 H1 Hh0 Hh1 Hr)
      as (_ & Hbefore & _ & Hwhole & _).
    apply Hbefore. apply (Hwhole 100); [split; reflexivity | vm_compute; reflexivity].
  - destruct (C1_IsHidden_across_refresh emptyStore storeHalf [] hiddenHalf "x"
                (Fin (201 # 2)) HiddenItemsCache.New (atSecond 95 + halfSecond)
                (atSecond 101) H0 H2 (fun x (H : In x []) => match H with end) Hh2 Hr2)
      as (Hfrom & _).
    apply Hfrom; [reflexivity|].
    eexists. split; [left; reflexivity | reflexivity].
  - destruct (C1_IsHidden_across_refresh emptyStore storeHalf [] hiddenHalf "x"
                (Fin (201 # 2)) HiddenItemsCache.New (atSecond 95 + halfSecond)
                (atSecond 100 + 700000000) H0 H2
                (fun x (H : In x []) => match H with end) Hh2 Hr2)
      as (_ & Hbefore & _).
    apply Hbefore. reflexivity.
Defined.

(** ** The popular items cache *)

Lemma sync_refreshed (client : cache.Database) (items : list cache.Scored)
    (sc : PopularItemsCache.t) :
  cache.GetSorted client (cache.Key [cache.PopularItems]) 0 (-1) = Ok items ->
  PopularItemsCache.sync client sc =
    ({| PopularItemsCache.scores := PopularItemsCache.collect items;
        PopularItemsCache.test := PopularItemsCache.test sc |}, []).
Proof. intros H. unfold PopularItemsCache.sync. rewrite H. reflexivity. Qed.

(** A look-up in a cache that a refresh from [items] has filled reads the
    map collected from [items], whether or not the look-up refreshes again. *)
Lemma GetSortedScore_refreshed (client : cache.Database) (items : list cache.Scored)
    (sc : PopularItemsCache.t) (member : string) :
  cache.GetSorted client (cache.Key [cache.PopularItems]) 0 (-1) = Ok items ->
  snd (PopularItemsCache.GetSortedScore client
         (fst (PopularItemsCache.sync client sc)) member) =
    default float64_zero (PopularItemsCache.collect items !! member).
Proof.
  intros H. unfold PopularItemsCache.GetSortedScore.
  rewrite !(sync_refreshed _ _ _ H). simpl.
  destruct (PopularItemsCache.test sc); reflexivity.
Qed.

Lemma collect_sourceAB (items : list cache.Scored) :
  Permutation items sourceAB ->
  PopularItemsCache.collect items !! "a" = Some (Fin 5) /\
  PopularItemsCache.collect items !! "b" = Some (Fin 3) /\
  PopularItemsCache.collect items !! "c" = None.
Proof.
  intros H. apply Permutation_sym, Permutation_length_2_inv in H.
  destruct H as [-> | ->]; repeat split; reflexivity.
Qed.

(** C5. A look-up of an identifier that the snapshot it reads does not hold
    returns exactly 0.0; the look-up has no error result. After a refresh
    that succeeded on the source pairs a: 5.0 and b: 3.0, the look-up returns
    5.0 for a, 3.0 for b and 0.0 for c. *)
Theorem C5_GetSortedScore_default_and_refresh :
  (forall client sc member,
      let '(sc1, _, score) := PopularItemsCache.GetSortedScore client sc member in
      PopularItemsCache.scores sc1 !! member = None -> score = float64_zero) /\
  (forall client sc member,
      PopularItemsCache.test sc = false ->
      PopularItemsCache.scores sc !! member = None ->
      PopularItemsCache.GetSortedScore client sc member = (sc, [], float64_zero)) /\
  (forall client items sc0,
      cache.GetSorted client (cache.Key [cache.PopularItems]) 0 (-1) = Ok items ->
      Permutation items sourceAB ->
      let sc := fst (PopularItemsCache.sync client sc0) in
      snd (PopularItemsCache.GetSortedScore client sc "a") = Fin 5 /\
      snd (PopularItemsCache.GetSortedScore client sc "b") = Fin 3 /\
      snd (PopularItemsCache.GetSortedScore client sc "c") = Fin 0).
Proof.
  split; [|split].
  - intros client sc member. unfold PopularItemsCache.GetSortedScore.
    destruct (if PopularItemsCache.test sc then _ else _) as [sc1 did].
    intros ->. reflexivity.
  - intros client sc member Ht Hm. unfold PopularItemsCache.GetSortedScore.
    rewrite Ht, Hm. reflexivity.
  - intros client items sc0 Hq Hp sc. subst sc.
    rewrite !(GetSortedScore_refreshed _ _ _ _ Hq).
    destruct (collect_sourceAB items Hp) as [-> [-> ->]].
    repeat split; reflexivity.
Qed.

Lemma C5_witness :
  PopularItemsCache.GetSortedScore storeWithAB PopularItemsCache.New "zzz"
    = (PopularItemsCache.New, [], Fin 0) /\
  (let sc := fst (PopularItemsCache.sync storeWithAB PopularItemsCache.newForTest) in
   snd (PopularItemsCache.GetSortedScore storeWithAB sc "a") = Fin 5 /\
   snd (PopularItemsCache.GetSortedScore storeWithAB sc "b") = Fin 3 /\
   snd (PopularItemsCache.GetSortedScore storeWithAB sc "c") = Fin 0).
Proof.
  destruct C5_GetSortedScore_default_and_refresh as [_ [Hdefault Hrefresh]].
  split.
  - apply Hdefault; reflexivity.
  - apply (Hrefresh storeWithAB (cache.sortByScore sourceAB)).
    + reflexivity.
    + vm_compute. apply perm_swap.
Defined.

(** ** Failures of the store queries *)

(** C6. [IsHidden] returns an error exactly when its delta query fails, and
    then it returns no answers at all; when the query succeeds it returns one
    answer for each member and no error. *)
Theorem C6_IsHidden_error_iff_query_fails
    (client : cache.Database) (now : time.Time) (hc : HiddenItemsCache.t)
    (members : list string) :
  let query :=
    cache.GetSortedByScore client cache.HiddenItemsV2
      (float64_of_int (time.Unix (HiddenItemsCache.updateTime hc)))
      (float64_of_int (time.Unix now)) in
  let '(answers, err) := HiddenItemsCache.IsHidden client now hc members in
  (err <> None <-> exists e, query = Err e) /\
  (forall e, query = Err e -> answers = None /\ err = Some (errors.Trace e)) /\
  (forall score, query = Ok score ->
     err = None /\
     exists bs, answers = Some bs /\ length bs = length members).
Proof.
  unfold HiddenItemsCache.IsHidden.
  destruct (cache.GetSortedByScore _ _ _ _) as [score | e]; cbv zeta.
  - split; [|split].
    + split; [congruence | intros [e He]; discriminate].
    + intros e He. discriminate.
    + intros score' _. split; [reflexivity|].
      eexists. split; [reflexivity|]. apply length_map.
  - split; [|split].
    + split; [eauto | discriminate].
    + intros e' He. injection He as <-. split; reflexivity.
    + intros score He. discriminate.
Qed.

(** C7. When the source query of a refresh fails, either cache is left as it
    was: the snapshot, and for the hidden items cache its update time too.
    The refresh is silent when the error is of the "not assigned" kind and
    writes one error line to the log otherwise. *)
Theorem C7_sync_failure_keeps_snapshot :
  (forall client sc e,
      cache.GetSorted client (cache.Key [cache.PopularItems]) 0 (-1) = Err e ->
      PopularItemsCache.sync client sc =
        (sc, if errors.IsNotAssigned e then []
             else [Log Error "failed to get popular items"])) /\
  (forall client now hc e,
      cache.GetSortedByScore client cache.HiddenItemsV2
        NegInf (float64_of_int (time.Unix now)) = Err e ->
      HiddenItemsCache.sync client now hc =
        (hc, if errors.IsNotAssigned e then []
             else [Log Error "failed to load hidden items"])).
Proof.
  split.
  - intros client sc e H. unfold PopularItemsCache.sync. rewrite H. reflexivity.
  - intros client now hc e H. unfold HiddenItemsCache.sync. rewrite H. reflexivity.
Qed.

Lemma C7_witness :
  PopularItemsCache.sync (cache.failing (errors.NotAssigned "popular_items"))
    PopularItemsCache.New = (PopularItemsCache.New, []) /\
  HiddenItemsCache.sync (cache.failing (errors.Traced (errors.Other "connection refused")))
    (atSecond 95) HiddenItemsCache.New
    = (HiddenItemsCache.New, [Log Error "failed to load hidden items"]).
Proof.
  destruct C7_sync_failure_keeps_snapshot as [Hpopular Hhidden].
  split.
  - apply (Hpopular (cache.failing (errors.NotAssigned "popular_items"))
             PopularItemsCache.New (errors.NotAssigned "popular_items")).
    reflexivity.
  - apply (Hhidden (cache.failing (errors.Traced (errors.Other "connection refused")))
             (atSecond 95) HiddenItemsCache.New
             (errors.Traced (errors.Other "connection refused"))).
    reflexivity.
Defined.

(** ** The node's name at the start of [Serve] *)

Lemma eqb_empty (n : string) : String.eqb n "" = true <-> n = "".
Proof. apply String.eqb_eq. Qed.

(** C8, on the code. When [LoadLocalCache] returns a nil state, as it does
    with its error for a file that cannot be decoded, [Serve] panics before
    it has logged anything: it draws no name and writes nothing. When
    [LoadLocalCache] returns a state, a failed read only adds a line to the
    log: [Serve] then goes on exactly as after a clean load of the same
    state; a name is drawn and written back if and only if the loaded name is
    empty; the process exits if and only if that write fails, and the last
    thing it does then is the fatal log line; and [Serve] writes at most
    once. *)
Theorem C8_identity_bootstrap (env : bootEnv) (s : Server) :
  let loaded := fst (loadLocalCache env (cacheFile s)) in
  let err := snd (loadLocalCache env (cacheFile s)) in
  let run := Serve_openLocalStore env s in
  let clean := Serve_openLocalStore (loadedCleanly env) s in
  (loaded = None -> run = Crashed []) /\
  (forall state, loaded = Some state ->
     let drawn := {| path := path state; ServerName := randomName env |} in
     (err <> None ->
        bootEvents run = Log Error "failed to connect local store" :: bootEvents clean /\
        nameOf run = nameOf clean /\ hasExited run = hasExited clean) /\
     (err = None -> run = clean) /\
     (In (WriteLocalCache (path state) (randomName env)) (bootEvents run)
        <-> ServerName state = "") /\
     (count isWrite (bootEvents run) =
        if String.eqb (ServerName state) "" then 1 else 0)%nat /\
     (hasExited run = true <->
        ServerName state = "" /\ writeLocalCache env drawn <> None) /\
     (hasExited run = true ->
        exists did, bootEvents run = did ++ [Log Fatal "failed to write meta"]) /\
     (ServerName state = "" -> writeLocalCache env drawn = None ->
        nameOf run = Some (randomName env)) /\
     (ServerName state <> "" -> nameOf run = Some (ServerName state)) /\
     (count isWrite (bootEvents run) <= 1)%nat).
Proof.
  unfold Serve_openLocalStore, loadedCleanly; simpl.
  destruct (loadLocalCache env (cacheFile s)) as [[loaded|] err]; simpl;
    (split; [intros H; try discriminate H; reflexivity|]);
    intros state Hs; [|discriminate Hs].
  injection Hs as <-.
  destruct (String.eqb (ServerName loaded) "") eqn:Hname.
  - apply eqb_empty in Hname.
    destruct (writeLocalCache env _) as [werr|] eqn:Hw;
      destruct err as [e|]; simpl; unfold count; simpl;
      repeat split; try congruence; try lia; try tauto; intros;
      try (intuition congruence);
      try (eexists (_ :: _ :: nil); reflexivity);
      try (eexists (_ :: nil); reflexivity).
  - assert (Hne : ServerName loaded <> "").
    { intros H. apply eqb_empty in H. congruence. }
    destruct err as [e|]; simpl; unfold count; simpl;
      repeat split; try congruence; try lia; try tauto; intros;
      try (intuition congruence).
Qed.

(** ** One pass of the loop of [Sync] *)

(** The body after a pull and a decoding that both succeeded and left a
    configuration. *)
Lemma syncBody_pulled (env : tickEnv) (s : Server) (meta : Meta) (cfg : config.Config) :
  getMeta env (nodeInfo s) = Ok meta ->
  json.Unmarshal (Config meta) (GorseConfig (rest s)) = (Some cfg, None) ->
  syncBody env s =
    let '(s2, did2, stop2) := connectDataStore env cfg (withGorseConfig (Some cfg) s) in
    if stop2 then (s2, [Rpc GetMeta (nodeInfo s)] ++ did2)
    else
      let '(s3, did3, _) := connectCacheStore env cfg s2 in
      (s3, [Rpc GetMeta (nodeInfo s)] ++ did2 ++ did3).
Proof.
  intros Hm Hj. unfold syncBody, syncPass. rewrite Hm, Hj.
  destruct (connectDataStore env cfg _) as [[s2 did2] [|]]; [reflexivity|].
  destruct (connectCacheStore env cfg s2) as [[s3 did3] stop3]. reflexivity.
Qed.

(** Case analysis on everything the body of the loop branches on. *)
Ltac sync_cases :=
  unfold syncBody, passPanics, syncPass, connectDataStore, connectCacheStore, recovered;
  repeat match goal with
         | |- context [match getMeta ?env ?i with _ => _ end] =>
             destruct (getMeta env i)
         | |- context [let '(_, _) := json.Unmarshal ?d ?c in _] =>
             destruct (json.Unmarshal d c) as [[?|] [?|]]
         | |- context [if String.eqb ?a ?b then _ else _] =>
             destruct (String.eqb a b) eqn:?
         | |- context [let '(_, _) := dataOpen ?env ?a in _] =>
             destruct (dataOpen env a) as [? [?|]]
         | |- context [let '(_, _) := cacheOpen ?env ?a in _] =>
             destruct (cacheOpen env a) as [? [?|]]
         | _ => progress cbn
         end.

Lemma syncBody_testMode (env : tickEnv) (s : Server) :
  testMode (fst (syncBody env s)) = testMode s.
Proof. sync_cases; reflexivity. Qed.

Lemma syncBody_nodeInfo (env : tickEnv) (s : Server) :
  nodeInfo (fst (syncBody env s)) = nodeInfo s.
Proof. sync_cases; reflexivity. Qed.

Lemma syncBody_requests (env : tickEnv) (s : Server) :
  requests (snd (syncBody env s)) = [(GetMeta, nodeInfo s)].
Proof. sync_cases; reflexivity. Qed.

Lemma syncBody_no_sleep (env : tickEnv) (s : Server) :
  count isSleep (snd (syncBody env s)) = 0%nat.
Proof. sync_cases; reflexivity. Qed.

Lemma requests_app (a b : list event) : requests (a ++ b) = requests a ++ requests b.
Proof.
  induction a as [|e a IH]; [reflexivity|].
  destruct e; simpl; rewrite IH; reflexivity.
Qed.

Lemma count_app (kind : event -> bool) (a b : list event) :
  count kind (a ++ b) = (count kind a + count kind b)%nat.
Proof. unfold count. rewrite List.filter_app, length_app. reflexivity. Qed.

Lemma eventsOf_after (pre : list event) (o : outcome) :
  eventsOf (after pre o) = pre ++ eventsOf o.
Proof. destruct o; reflexivity. Qed.

Lemma serverOf_after (pre : list event) (o : outcome) : serverOf (after pre o) = serverOf o.
Proof. destruct o; reflexivity. Qed.

Lemma hasReturned_after (pre : list event) (o : outcome) :
  hasReturned (after pre o) = hasReturned o.
Proof. destruct o; reflexivity. Qed.

(** ** Panics of [Sync] *)

(** When the decoding leaves no configuration, the blob was [null], or was
    not valid JSON and there was none before. *)
Lemma Unmarshal_nil (data : json.text) (target : option config.Config)
    (err : option errors.error) :
  json.Unmarshal data target = (None, err) ->
  (data = Some json.Null /\ err = None) \/ (data = None /\ target = None /\ err <> None).
Proof.
  unfold json.Unmarshal. destruct data as [v|].
  - destruct v; try (destruct (json.decodeStruct _ _ _); discriminate).
    intros H. injection H as <-. left. split; reflexivity.
  - intros H. injection H as -> <-. right. repeat split. discriminate.
Qed.

Lemma Unmarshal_null (target : option config.Config) :
  json.Unmarshal (Some json.Null) target = (None, None).
Proof. reflexivity. Qed.

(** A pass panics exactly when the master answers with the blob [null]. *)
Lemma passPanics_iff (env : tickEnv) (s : Server) :
  passPanics env s = true <-> pullsNull (nodeInfo s) env.
Proof.
  unfold passPanics, syncPass, pullsNull.
  destruct (getMeta env (nodeInfo s)) as [meta | e].
  - destruct (json.Unmarshal (Config meta) (GorseConfig (rest s))) as [cfg err] eqn:Hj.
    destruct err as [e|].
    + simpl. split; [discriminate|]. intros (meta' & Hm & Hn).
      injection Hm as <-. rewrite Hn, Unmarshal_null in Hj. discriminate Hj.
    + destruct cfg as [c|].
      * split.
        -- destruct (connectDataStore env c _) as [[s2 did2] [|]]; [discriminate|].
           destruct (connectCacheStore env c s2) as [[s3 did3] stop3]. discriminate.
        -- intros (meta' & Hm & Hn). injection Hm as <-.
           rewrite Hn, Unmarshal_null in Hj. discriminate Hj.
      * simpl. split; [|reflexivity]. intros _.
        apply Unmarshal_nil in Hj. destruct Hj as [[Hn _] | (_ & _ & Hc)];
          [exists meta; split; [reflexivity | exact Hn] | congruence].
  - simpl. split; [discriminate|]. intros (meta' & Hm & _). discriminate Hm.
Qed.

(** A pass that panics leaves no configuration, and the last thing [Sync]
    does is the line of the recovery. *)
Lemma syncBody_panicked (env : tickEnv) (s : Server) :
  passPanics env s = true ->
  GorseConfig (rest (fst (syncBody env s))) = None /\
  snd (syncBody env s) = [Rpc GetMeta (nodeInfo s)] ++ recovered.
Proof. sync_cases; intros H; try discriminate H; split; reflexivity. Qed.

(** A pass that does not panic leaves a configuration when it found one. *)
Lemma syncBody_keeps_config (env : tickEnv) (s : Server) :
  GorseConfig (rest s) <> None -> passPanics env s = false ->
  GorseConfig (rest (fst (syncBody env s))) <> None.
Proof.
  intros Hc. unfold syncBody, passPanics, syncPass.
  destruct (getMeta env (nodeInfo s)) as [meta | e]; [|intros _; exact Hc].
  destruct (json.Unmarshal (Config meta) (GorseConfig (rest s))) as [cfg err] eqn:Hj.
  destruct cfg as [c|].
  - destruct err as [e|]; [intros _; simpl; discriminate|].
    destruct (connectDataStore env c _) as [[s2 did2] stop2] eqn:Hd.
    assert (H2 : GorseConfig (rest s2) = Some c).
    { revert Hd. unfold connectDataStore.
      destruct (String.eqb _ _); [intros H; injection H as <- _ _; reflexivity|].
      destruct (dataOpen env _) as [client [e|]]; intros H; injection H as <- _ _;
        reflexivity. }
    destruct stop2; [intros _; simpl; congruence|].
    destruct (connectCacheStore env c s2) as [[s3 did3] stop3] eqn:Hk.
    assert (H3 : GorseConfig (rest s3) = Some c).
    { revert Hk. unfold connectCacheStore.
      destruct (String.eqb _ _); [intros H; injection H as <- _ _; exact H2|].
      destruct (cacheOpen env _) as [client [e|]]; intros H; injection H as <- _ _;
        exact H2. }
    intros _. simpl. congruence.
  - apply Unmarshal_nil in Hj. destruct Hj as [[_ ->] | (_ & Ht & _)]; [|congruence].
    simpl. discriminate.
Qed.

(** One turn of the loop, in terms of its body. *)
Lemma syncLoop_cons (env : tickEnv) (envs : list tickEnv) (s : Server) :
  syncLoop (env :: envs) s =
    if passPanics env s || testMode (fst (syncBody env s))
    then Returned (fst (syncBody env s)) (snd (syncBody env s))
    else
      match GorseConfig (rest (fst (syncBody env s))) with
      | None => Returned (fst (syncBody env s)) (snd (syncBody env s) ++ recovered)
      | Some cfg =>
          after (snd (syncBody env s) ++ [Sleep (config.MetaTimeout (config.Master cfg))])
                (syncLoop envs (fst (syncBody env s)))
      end.
Proof.
  cbn [syncLoop]. unfold syncBody, passPanics.
  destruct (syncPass env s) as [[s1 did] [|]]; [reflexivity|].
  cbn [fst snd orb]. destruct (testMode s1); reflexivity.
Qed.

(** ** One-shot mode *)



(** ** The store connections *)

(** After a pull and a decoding that succeeded: case analysis on the two
    store steps, with the comparisons of addresses turned into equations. *)
Ltac store_cases Hm Hj :=
  rewrite ?(syncBody_pulled _ _ _ _ Hm Hj);
  unfold connectDataStore, connectCacheStore, dataStepPasses, count;
  cbn;
  repeat match goal with
         | |- context [String.eqb ?a ?b] => destruct (String.eqb a b) eqn:?; cbn
         | |- context [dataOpen ?env ?a] => destruct (dataOpen env a) as [? [?|]]; cbn
         | |- context [cacheOpen ?env ?a] => destruct (cacheOpen env a) as [? [?|]]; cbn
         end;
  repeat match goal with
         | H : String.eqb _ _ = true |- _ => apply String.eqb_eq in H
         | H : String.eqb _ _ = false |- _ => apply String.eqb_neq in H
         end.

Ltac finish_store :=
  repeat split; intros;
  repeat match goal with
         | H : _ /\ _ |- _ => destruct H
         | H : _ \/ _ |- _ => destruct H
         | H : (_, _) = (_, _) |- _ => injection H as ? ?
         end;
  subst; try congruence; try lia; try tauto; auto.

Lemma syncBody_data_same (env : tickEnv) (s : Server) (meta : Meta) (cfg : config.Config) :
  getMeta env (nodeInfo s) = Ok meta ->
  json.Unmarshal (Config meta) (GorseConfig (rest s)) = (Some cfg, None) ->
  dataPath s = config.DataStore (config.Database cfg) ->
  count isOpenData (snd (syncBody env s)) = 0%nat /\
  DataClient (rest (fst (syncBody env s))) = DataClient (rest s) /\
  dataPath (fst (syncBody env s)) = dataPath s.
Proof. intros Hm Hj. store_cases Hm Hj; finish_store. Qed.

Lemma syncBody_cache_same (env : tickEnv) (s : Server) (meta : Meta) (cfg : config.Config) :
  getMeta env (nodeInfo s) = Ok meta ->
  json.Unmarshal (Config meta) (GorseConfig (rest s)) = (Some cfg, None) ->
  cachePath s = config.CacheStore (config.Database cfg) ->
  count isOpenCache (snd (syncBody env s)) = 0%nat /\
  CacheClient (rest (fst (syncBody env s))) = CacheClient (rest s) /\
  cachePath (fst (syncBody env s)) = cachePath s.
Proof. intros Hm Hj. store_cases Hm Hj; finish_store. Qed.

Lemma syncBody_pulled_config (env : tickEnv) (s : Server) (meta : Meta)
    (cfg : config.Config) :
  getMeta env (nodeInfo s) = Ok meta ->
  json.Unmarshal (Config meta) (GorseConfig (rest s)) = (Some cfg, None) ->
  GorseConfig (rest (fst (syncBody env s))) = Some cfg.
Proof. intros Hm Hj. store_cases Hm Hj; finish_store. Qed.

Lemma syncBody_clean_records (env : tickEnv) (s : Server) (meta : Meta) (cfg : config.Config) :
  getMeta env (nodeInfo s) = Ok meta ->
  json.Unmarshal (Config meta) (GorseConfig (rest s)) = (Some cfg, None) ->
  count isErrorLog (snd (syncBody env s)) = 0%nat ->
  dataPath (fst (syncBody env s)) = config.DataStore (config.Database cfg) /\
  cachePath (fst (syncBody env s)) = config.CacheStore (config.Database cfg).
Proof. intros Hm Hj. store_cases Hm Hj; finish_store. Qed.

Lemma syncBody_opens_data (env : tickEnv) (s : Server) (meta : Meta) (cfg : config.Config) :
  getMeta env (nodeInfo s) = Ok meta ->
  json.Unmarshal (Config meta) (GorseConfig (rest s)) = (Some cfg, None) ->
  dataPath s <> config.DataStore (config.Database cfg) ->
  In (OpenData (config.DataStore (config.Database cfg))) (snd (syncBody env s)) /\
  count isOpenData (snd (syncBody env s)) = 1%nat.
Proof. intros Hm Hj. store_cases Hm Hj; finish_store. Qed.

Lemma syncBody_opens_cache (env : tickEnv) (s : Server) (meta : Meta) (cfg : config.Config) :
  getMeta env (nodeInfo s) = Ok meta ->
  json.Unmarshal (Config meta) (GorseConfig (rest s)) = (Some cfg, None) ->
  dataStepPasses env s cfg ->
  cachePath s <> config.CacheStore (config.Database cfg) ->
  In (OpenCache (config.CacheStore (config.Database cfg))) (snd (syncBody env s)) /\
  count isOpenCache (snd (syncBody env s)) = 1%nat.
Proof. intros Hm Hj. store_cases Hm Hj; finish_store. Qed.

(** C10. A pass pulled a configuration and decoded it without error, so
    that the server holds it, and the open of the data store (of the cache
    store) that the changed address calls for fails. Then the pass leaves
    [dataPath] ([cachePath]) as it was, so that the next pass that pulls the
    same addresses opens again; and the client field holds what the failed
    open returned, not the handle held before. *)
Theorem C10_failed_open_overwrites_handle
    (env : tickEnv) (s : Server) (meta : Meta) (cfg : config.Config) :
  getMeta env (nodeInfo s) = Ok meta ->
  json.Unmarshal (Config meta) (GorseConfig (rest s)) = (Some cfg, None) ->
  let s' := fst (syncBody env s) in
  let dataAddr := config.DataStore (config.Database cfg) in
  let cacheAddr := config.CacheStore (config.Database cfg) in
  let pullsSame (env2 : tickEnv) :=
    exists meta2 cfg2,
      getMeta env2 (nodeInfo s') = Ok meta2 /\
      json.Unmarshal (Config meta2) (GorseConfig (rest s')) = (Some cfg2, None) /\
      config.DataStore (config.Database cfg2) = dataAddr /\
      config.CacheStore (config.Database cfg2) = cacheAddr in
  (dataPath s <> dataAddr -> snd (dataOpen env dataAddr) <> None ->
     dataPath s' = dataPath s /\
     DataClient (rest s') = fst (dataOpen env dataAddr) /\
     forall env2, pullsSame env2 -> In (OpenData dataAddr) (snd (syncBody env2 s'))) /\
  (dataStepPasses env s cfg ->
   cachePath s <> cacheAddr -> snd (cacheOpen env cacheAddr) <> None ->
     cachePath s' = cachePath s /\
     CacheClient (rest s') = fst (cacheOpen env cacheAddr) /\
     forall env2, pullsSame env2 -> In (OpenCache cacheAddr) (snd (syncBody env2 s'))).
Proof.
  intros Hm Hj s' dataAddr cacheAddr pullsSame. split.
  - intros Hne Hfail.
    assert (Hkeep : dataPath s' = dataPath s /\
                    DataClient (rest s') = fst (dataOpen env dataAddr)).
    { subst s' dataAddr. revert Hne Hfail. store_cases Hm Hj; finish_store. }
    destruct Hkeep as [Hpath Hclient]. repeat split; [exact Hpath | exact Hclient |].
    intros env2 (meta2 & cfg2 & Hm2 & Hj2 & Hd2 & _).
    rewrite <- Hd2.
    apply (syncBody_opens_data env2 s' meta2 cfg2 Hm2 Hj2). congruence.
  - intros Hpass Hne Hfail.
    assert (Hkeep : cachePath s' = cachePath s /\
                    CacheClient (rest s') = fst (cacheOpen env cacheAddr) /\
                    dataPath s' = dataAddr).
    { subst s' dataAddr cacheAddr. revert Hpass Hne Hfail.
      store_cases Hm Hj; finish_store. }
    destruct Hkeep as (Hpath & Hclient & Hdata).
    repeat split; [exact Hpath | exact Hclient |].
    intros env2 (meta2 & cfg2 & Hm2 & Hj2 & Hd2 & Hc2).
    rewrite <- Hc2.
    apply (syncBody_opens_cache env2 s' meta2 cfg2 Hm2 Hj2).
    + left. congruence.
    + congruence.
Qed.

Lemma C10_witness :
  let env := exampleEnv (blobStores "mysql://data" "redis://cache") false true in
  dataPath (fst (syncBody env (exampleServer true))) = "" /\
  DataClient (rest (fst (syncBody env (exampleServer true)))) = None.
Proof.
  intros env.
  destruct (C10_failed_open_overwrites_handle env (exampleServer true)
              {| Config := blobStores "mysql://data" "redis://cache" |}
              (exampleConfig "mysql://data" "redis://cache")
              eq_refl eq_refl) as [Hdata _].
  destruct Hdata as (Hpath & Hclient & _).
  - vm_compute. discriminate.
  - vm_compute. discriminate.
  - split; [exact Hpath | exact Hclient].
Defined.

(** The claim C4 as it is worded fails on two counts. In a first pass whose
    data store open fails, the pulled cache address differs from the recorded
    one and yet no cache connection is opened. In the second pass the pull
    carries the same data address as the first, and a data connection is
    opened again. *)
Lemma C4_counterexample :
  let blob := blobStores "mysql://data" "redis://cache" in
  let pulled := Some (exampleConfig "mysql://data" "redis://cache") in
  let s0 := exampleServer true in
  let '(s1, did1) := syncBody (exampleEnv blob false true) s0 in
  let '(s2, did2) := syncBody (exampleEnv blob true true) s1 in
  (GorseConfig (rest s1) = pulled /\ cachePath s0 = "" /\
   count isOpenCache did1 = 0%nat) /\
  (GorseConfig (rest s2) = pulled /\ count isOpenData did2 = 1%nat).
Proof. vm_compute. repeat split. Qed.

(** C4, amended. In a pass that pulled a configuration and decoded it
    without error, so that the server holds it, a data store connection is
    opened if and only if the pulled address differs from [dataPath], the
    address of the last open that succeeded; a cache store connection is
    opened if and only if the data store step did not fail and the pulled
    address differs from [cachePath]. A store whose address equals the
    recorded one keeps its handle. A pass without error records both pulled
    addresses, so when the next pull carries the same address for a store,
    the next pass opens no connection to it and keeps its handle. *)
Theorem C4_open_iff_address_changed
    (env : tickEnv) (s : Server) (meta : Meta) (cfg : config.Config) :
  getMeta env (nodeInfo s) = Ok meta ->
  json.Unmarshal (Config meta) (GorseConfig (rest s)) = (Some cfg, None) ->
  let s' := fst (syncBody env s) in
  let did := snd (syncBody env s) in
  let dataAddr := config.DataStore (config.Database cfg) in
  let cacheAddr := config.CacheStore (config.Database cfg) in
  ((0 < count isOpenData did)%nat <-> dataPath s <> dataAddr) /\
  ((0 < count isOpenCache did)%nat <->
     dataStepPasses env s cfg /\ cachePath s <> cacheAddr) /\
  (forall a, In (OpenData a) did -> a = dataAddr) /\
  (forall a, In (OpenCache a) did -> a = cacheAddr) /\
  (dataPath s = dataAddr -> DataClient (rest s') = DataClient (rest s)) /\
  (cachePath s = cacheAddr -> CacheClient (rest s') = CacheClient (rest s)) /\
  (count isErrorLog did = 0%nat ->
     forall env2 meta2 cfg2,
       getMeta env2 (nodeInfo s') = Ok meta2 ->
       json.Unmarshal (Config meta2) (GorseConfig (rest s')) = (Some cfg2, None) ->
       (config.DataStore (config.Database cfg2) = dataAddr ->
          count isOpenData (snd (syncBody env2 s')) = 0%nat /\
          DataClient (rest (fst (syncBody env2 s'))) = DataClient (rest s')) /\
       (config.CacheStore (config.Database cfg2) = cacheAddr ->
          count isOpenCache (snd (syncBody env2 s')) = 0%nat /\
          CacheClient (rest (fst (syncBody env2 s'))) = CacheClient (rest s'))).
Proof.
  intros Hm Hj s' did dataAddr cacheAddr.
  assert (Hone :
    ((0 < count isOpenData did)%nat <-> dataPath s <> dataAddr) /\
    ((0 < count isOpenCache did)%nat <->
       dataStepPasses env s cfg /\ cachePath s <> cacheAddr) /\
    (forall a, In (OpenData a) did -> a = dataAddr) /\
    (forall a, In (OpenCache a) did -> a = cacheAddr)).
  { subst s' did dataAddr cacheAddr. store_cases Hm Hj; finish_store. }
  destruct Hone as (H1 & H2 & H3 & H4).
  split; [exact H1|]. split; [exact H2|]. split; [exact H3|]. split; [exact H4|].
  split; [intros H; apply (syncBody_data_same env s meta cfg Hm Hj H)|].
  split; [intros H; apply (syncBody_cache_same env s meta cfg Hm Hj H)|].
  intros Hclean env2 meta2 cfg2 Hm2 Hj2.
  destruct (syncBody_clean_records env s meta cfg Hm Hj Hclean) as (Hd & Hc).
  fold s' in Hd, Hc. subst dataAddr cacheAddr. split; intros Heq.
  - destruct (syncBody_data_same env2 s' meta2 cfg2 Hm2 Hj2) as (Hn & Hk & _);
      [congruence | split; assumption].
  - destruct (syncBody_cache_same env2 s' meta2 cfg2 Hm2 Hj2) as (Hn & Hk & _);
      [congruence | split; assumption].
Qed.

Lemma C4_witness :
  let env := exampleEnv (blobStores "mysql://data" "redis://cache") true true in
  (0 < count isOpenData (snd (syncBody env (exampleServer true))))%nat /\
  CacheClient (rest (fst (syncBody env (connectedServer "mysql://data" "redis://cache" true))))
    = Some emptyStore.
Proof.
  intros env. split.
  - destruct (C4_open_iff_address_changed env (exampleServer true)
                {| Config := blobStores "mysql://data" "redis://cache" |}
                (exampleConfig "mysql://data" "redis://cache")
                eq_refl eq_refl) as [Hopen _].
    apply Hopen. vm_compute. discriminate.
  - destruct (C4_open_iff_address_changed env
                (connectedServer "mysql://data" "redis://cache" true)
                {| Config := blobStores "mysql://data" "redis://cache" |}
                (exampleConfig "mysql://data" "redis://cache")
                eq_refl eq_refl) as (_ & _ & _ & _ & _ & Hkeep & _).
    apply Hkeep. reflexivity.
Defined.

(** ** The configuration held by [Sync] *)

Section DecodeMembers.

Context {A B : Type}.
Variable field : string -> json.value -> A -> A * bool.
Variable proj : A -> B.
Variable untouched : string -> json.value -> Prop.

(** A member that leaves the part [proj] untouched. *)
Hypothesis field_keeps :
  forall k v a, untouched k v -> proj (fst (field k v a)) = proj a.

Lemma decodeMembers_keeps (members : list (string * json.value)) (old : A) :
  (forall k v, In (k, v) members -> untouched k v) ->
  proj (fst (json.decodeMembers field members old)) = proj old.
Proof.
  unfold json.decodeMembers.
  change old with (fst (old, false)) at 2.
  generalize (old, false).
  induction members as [|[k v] members IH]; intros acc Hsel; [reflexivity|].
  simpl. rewrite IH.
  - destruct (field k v (fst acc)) as [a failed] eqn:Hf. simpl.
    change a with (fst (a, failed)). rewrite <- Hf.
    apply field_keeps. apply (Hsel k v). left. reflexivity.
  - intros k' v' Hin. apply (Hsel k' v'). right. exact Hin.
Qed.

Lemma decodeStruct_keeps (v : json.value) (old : A) :
  (forall members, v = json.Object members ->
     forall k' v', In (k', v') members -> untouched k' v') ->
  proj (fst (json.decodeStruct field v old)) = proj old.
Proof.
  intros H. destruct v; try reflexivity.
  simpl. apply decodeMembers_keeps. apply (H members eq_refl).
Qed.

End DecodeMembers.

Lemma databaseField_keeps_DataStore (k : string) (v : json.value)
    (c : config.DatabaseConfig) :
  json.EqualFold k "DataStore" = false ->
  config.DataStore (fst (json.databaseField k v c)) = config.DataStore c.
Proof.
  intros H. unfold json.databaseField. rewrite H.
  destruct (json.EqualFold k "CacheStore"); [|reflexivity].
  destruct (json.decodeString _ _); reflexivity.
Qed.

Lemma databaseField_keeps_CacheStore (k : string) (v : json.value)
    (c : config.DatabaseConfig) :
  json.EqualFold k "CacheStore" = false ->
  config.CacheStore (fst (json.databaseField k v c)) = config.CacheStore c.
Proof.
  intros H. unfold json.databaseField. rewrite H.
  destruct (json.EqualFold k "DataStore"); [|reflexivity].
  destruct (json.decodeString _ _); reflexivity.
Qed.

Lemma masterField_keeps_MetaTimeout (k : string) (v : json.value)
    (c : config.MasterConfig) :
  json.EqualFold k "MetaTimeout" = false ->
  config.MetaTimeout (fst (json.masterField k v c)) = config.MetaTimeout c.
Proof. intros H. unfold json.masterField. rewrite H. reflexivity. Qed.

Lemma serverField_keeps_CacheExpire (k : string) (v : json.value)
    (c : config.ServerConfig) :
  json.EqualFold k "CacheExpire" = false ->
  config.CacheExpire (fst (json.serverField k v c)) = config.CacheExpire c.
Proof. intros H. unfold json.serverField. rewrite H. reflexivity. Qed.

Ltac other_sections :=
  unfold json.configField;
  repeat match goal with
         | |- context [if json.EqualFold ?k ?n then _ else _] =>
             destruct (json.EqualFold k n) eqn:?
         | |- context [let '(_, _) := json.decodeStruct ?f ?v ?c in _] =>
             destruct (json.decodeStruct f v c) eqn:?
         end;
  try reflexivity; try discriminate.

Lemma configField_keeps_DataStore (k : string) (v : json.value) (c : config.Config) :
  sparesSetting "Database" "DataStore" k v ->
  config.DataStore (config.Database (fst (json.configField k v c))) =
  config.DataStore (config.Database c).
Proof.
  intros H. destruct (json.EqualFold k "Database") eqn:Hk; [|other_sections; congruence].
  unfold json.configField. rewrite Hk.
  pose proof (decodeStruct_keeps json.databaseField config.DataStore
                (fun k' _ => json.EqualFold k' "DataStore" = false)
                databaseField_keeps_DataStore v (config.Database c) (H Hk)) as Hd.
  destruct (json.decodeStruct _ _ _). exact Hd.
Qed.

Lemma configField_keeps_CacheStore (k : string) (v : json.value) (c : config.Config) :
  sparesSetting "Database" "CacheStore" k v ->
  config.CacheStore (config.Database (fst (json.configField k v c))) =
  config.CacheStore (config.Database c).
Proof.
  intros H. destruct (json.EqualFold k "Database") eqn:Hk; [|other_sections; congruence].
  unfold json.configField. rewrite Hk.
  pose proof (decodeStruct_keeps json.databaseField config.CacheStore
                (fun k' _ => json.EqualFold k' "CacheStore" = false)
                databaseField_keeps_CacheStore v (config.Database c) (H Hk)) as Hd.
  destruct (json.decodeStruct _ _ _). exact Hd.
Qed.

Lemma configField_keeps_MetaTimeout (k : string) (v : json.value) (c : config.Config) :
  sparesSetting "Master" "MetaTimeout" k v ->
  config.MetaTimeout (config.Master (fst (json.configField k v c))) =
  config.MetaTimeout (config.Master c).
Proof.
  intros H. destruct (json.EqualFold k "Master") eqn:Hk; [|other_sections; congruence].
  pose proof (decodeStruct_keeps json.masterField config.MetaTimeout
                (fun k' _ => json.EqualFold k' "MetaTimeout" = false)
                masterField_keeps_MetaTimeout v (config.Master c) (H Hk)) as Hd.
  unfold json.configField. rewrite Hk.
  destruct (json.EqualFold k "Database");
    [destruct (json.decodeStruct json.databaseField v (config.Database c)); reflexivity|].
  destruct (json.decodeStruct json.masterField v (config.Master c)). exact Hd.
Qed.

Lemma configField_keeps_CacheExpire (k : string) (v : json.value) (c : config.Config) :
  sparesSetting "Server" "CacheExpire" k v ->
  config.CacheExpire (config.Server (fst (json.configField k v c))) =
  config.CacheExpire (config.Server c).
Proof.
  intros H. destruct (json.EqualFold k "Server") eqn:Hk; [|other_sections; congruence].
  pose proof (decodeStruct_keeps json.serverField config.CacheExpire
                (fun k' _ => json.EqualFold k' "CacheExpire" = false)
                serverField_keeps_CacheExpire v (config.Server c) (H Hk)) as Hd.
  unfold json.configField. rewrite Hk.
  destruct (json.EqualFold k "Database");
    [destruct (json.decodeStruct json.databaseField v (config.Database c)); reflexivity|].
  destruct (json.EqualFold k "Master");
    [destruct (json.decodeStruct json.masterField v (config.Master c)); reflexivity|].
  destruct (json.decodeStruct json.serverField v (config.Server c)). exact Hd.
Qed.

Lemma Unmarshal_object (members : list (string * json.value))
    (target : option config.Config) :
  fst (json.Unmarshal (Some (json.Object members)) target) =
  Some (fst (json.decodeMembers json.configField members (default config.zero target))).
Proof.
  unfold json.Unmarshal, json.decodeStruct.
  destruct (json.decodeMembers _ _ _); reflexivity.
Qed.

Lemma Unmarshal_full (dataStore cacheStore : string) (metaTimeout cacheExpire : time.Duration)
    (target : option config.Config) :
  json.inInt64 metaTimeout = true ->
  json.inInt64 cacheExpire = true ->
  json.Unmarshal (Some (blobFull dataStore cacheStore metaTimeout cacheExpire)) target =
    (Some {| config.Database := {| config.DataStore := dataStore;
                                   config.CacheStore := cacheStore |};
             config.Master := {| config.MetaTimeout := metaTimeout |};
             config.Server := {| config.CacheExpire := cacheExpire |} |}, None).
Proof.
  intros Hm He.
  unfold blobFull. lazy -[json.inInt64]. rewrite Hm, He. reflexivity.
Qed.

(** A key written with the long s selects the field all the same. *)
Lemma Unmarshal_long_s (dataStore : string) (old : config.Config) :
  json.EqualFold (String.append "Databa" (String.append longS "e")) "Database" = true /\
  json.Unmarshal (blobLongS dataStore) (Some old) =
    (Some {| config.Database := {| config.DataStore := dataStore;
                                   config.CacheStore := config.CacheStore (config.Database old) |};
             config.Master := config.Master old;
             config.Server := config.Server old |}, None).
Proof. split; vm_compute; reflexivity. Qed.

Lemma syncBody_config (env : tickEnv) (s : Server) (meta : Meta) :
  getMeta env (nodeInfo s) = Ok meta ->
  GorseConfig (rest (fst (syncBody env s))) =
    fst (json.Unmarshal (Config meta) (GorseConfig (rest s))).
Proof.
  intros Hm. unfold syncBody, syncPass. rewrite Hm.
  destruct (json.Unmarshal _ _) as [[cfg|] [e|]]; try reflexivity.
  unfold connectDataStore, connectCacheStore; cbn.
  repeat match goal with
         | |- context [String.eqb ?a ?b] => destruct (String.eqb a b); cbn
         | |- context [dataOpen ?env ?a] => destruct (dataOpen env a) as [? [?|]]; cbn
         | |- context [cacheOpen ?env ?a] => destruct (cacheOpen env a) as [? [?|]]; cbn
         end; reflexivity.
Qed.

(** A server that holds a configuration holds none after a pass exactly when
    the pass pulled the blob [null]. *)
Lemma syncBody_config_lost (env : tickEnv) (s : Server) :
  GorseConfig (rest s) <> None ->
  GorseConfig (rest (fst (syncBody env s))) = None <-> pullsNull (nodeInfo s) env.
Proof.
  intros Hc. rewrite <- passPanics_iff. split.
  - intros Hn. destruct (passPanics env s) eqn:Hp; [reflexivity|].
    exfalso. apply (syncBody_keeps_config env s Hc Hp). exact Hn.
  - intros Hp. apply (syncBody_panicked env s Hp).
Qed.

(** The claim C3 as it is worded fails on two counts. A pass that succeeds
    on a blob that carries only the interval keeps the store addresses held
    before, so two servers that held different configurations hold different
    ones after the same blob. And a pass that fails to decode a blob with an
    ill-typed value has already stored the address that came before it. *)
Lemma C3_counterexample :
  let kept := connectedServer "mysql://data" "redis://cache" true in
  let other := connectedServer "mysql://other" "redis://cache" true in
  let merge := exampleEnv (blobInterval (5 * time.Second)) true true in
  let illTyped := exampleEnv (blobIllTyped "mysql://new") true true in
  let storesOf (s : Server) :=
    option_map (fun c => config.DataStore (config.Database c)) (GorseConfig (rest s)) in
  (count isErrorLog (snd (syncBody merge kept)) = 0%nat /\
   count isErrorLog (snd (syncBody merge other)) = 0%nat /\
   storesOf (fst (syncBody merge kept)) = Some "mysql://data" /\
   GorseConfig (rest (fst (syncBody merge kept)))
     <> GorseConfig (rest (fst (syncBody merge other)))) /\
  (In (Log Error "failed to parse master config") (snd (syncBody illTyped kept)) /\
   storesOf kept = Some "mysql://data" /\
   storesOf (fst (syncBody illTyped kept)) = Some "mysql://new").
Proof.
  vm_compute. repeat split.
  - discriminate.
  - right. left. reflexivity.
Qed.

(** C3, amended. On a server that holds a configuration: a pass whose pull
    fails leaves the whole server state as it was, and so does, for the
    configuration, a pass whose blob is not valid JSON. Any other pass leaves
    what decoding the blob onto the configuration held before gives, also
    when the decoding reports an ill-typed value. The blob [null] leaves no
    configuration, and no other blob does: the pass then panics at the
    comparison of the data store address, and [Sync] returns after the line
    of the recovery, in test mode and outside it. A blob that is an object
    leaves a configuration in which a setting that the blob carries no value
    for keeps its value, and a blob that carries all four settings replaces
    all four. Outside test mode, after a pass that leaves a configuration,
    the loop sleeps for the interval of that configuration and goes through
    its body again. *)
Theorem C3_config_after_pass (env : tickEnv) (envs : list tickEnv) (s : Server)
    (old : config.Config) :
  GorseConfig (rest s) = Some old ->
  let s' := fst (syncBody env s) in
  let did := snd (syncBody env s) in
  (forall e, getMeta env (nodeInfo s) = Err e -> s' = s) /\
  (forall meta, getMeta env (nodeInfo s) = Ok meta ->
     GorseConfig (rest s') = fst (json.Unmarshal (Config meta) (Some old))) /\
  json.Unmarshal None (Some old) = (Some old, Some (errors.Other "json: syntax error")) /\
  json.Unmarshal (Some json.Null) (Some old) = (None, None) /\
  (GorseConfig (rest s') = None <-> pullsNull (nodeInfo s) env) /\
  (pullsNull (nodeInfo s) env ->
     did = [Rpc GetMeta (nodeInfo s)] ++ recovered /\
     syncLoop (env :: envs) s = Returned s' did) /\
  (forall members,
     exists new,
       fst (json.Unmarshal (Some (json.Object members)) (Some old)) = Some new /\
       (carriesNo "Database" "DataStore" members ->
          config.DataStore (config.Database new) = config.DataStore (config.Database old)) /\
       (carriesNo "Database" "CacheStore" members ->
          config.CacheStore (config.Database new) = config.CacheStore (config.Database old)) /\
       (carriesNo "Master" "MetaTimeout" members ->
          config.MetaTimeout (config.Master new) = config.MetaTimeout (config.Master old)) /\
       (carriesNo "Server" "CacheExpire" members ->
          config.CacheExpire (config.Server new) = config.CacheExpire (config.Server old))) /\
  (forall dataStore cacheStore metaTimeout cacheExpire,
     json.inInt64 metaTimeout = true ->
     json.inInt64 cacheExpire = true ->
     json.Unmarshal (Some (blobFull dataStore cacheStore metaTimeout cacheExpire)) (Some old) =
       (Some {| config.Database := {| config.DataStore := dataStore;
                                      config.CacheStore := cacheStore |};
                config.Master := {| config.MetaTimeout := metaTimeout |};
                config.Server := {| config.CacheExpire := cacheExpire |} |}, None)) /\
  (testMode s = false ->
     forall cfg, GorseConfig (rest s') = Some cfg ->
       syncLoop (env :: envs) s =
         after (did ++ [Sleep (config.MetaTimeout (config.Master cfg))]) (syncLoop envs s')).
Proof.
  intros Hold s' did.
  assert (Hc : GorseConfig (rest s) <> None) by congruence.
  split; [|split; [|split; [|split; [|split; [|split; [|split; [|split]]]]]]].
  - intros e He. subst s'. unfold syncBody, syncPass. rewrite He. reflexivity.
  - intros meta Hm. rewrite <- Hold. apply (syncBody_config env s meta Hm).
  - reflexivity.
  - reflexivity.
  - apply (syncBody_config_lost env s Hc).
  - intros Hnull. apply passPanics_iff in Hnull.
    split; [apply (syncBody_panicked env s Hnull)|].
    rewrite syncLoop_cons, Hnull. reflexivity.
  - intros members.
    exists (fst (json.decodeMembers json.configField members old)).
    split; [apply (Unmarshal_object members (Some old))|].
    split; [|split; [|split]]; intros Hsel.
    + apply (decodeMembers_keeps json.configField
               (fun c => config.DataStore (config.Database c))
               (sparesSetting "Database" "DataStore") configField_keeps_DataStore
               members old Hsel).
    + apply (decodeMembers_keeps json.configField
               (fun c => config.CacheStore (config.Database c))
               (sparesSetting "Database" "CacheStore") configField_keeps_CacheStore
               members old Hsel).
    + apply (decodeMembers_keeps json.configField
               (fun c => config.MetaTimeout (config.Master c))
               (sparesSetting "Master" "MetaTimeout") configField_keeps_MetaTimeout
               members old Hsel).
    + apply (decodeMembers_keeps json.configField
               (fun c => config.CacheExpire (config.Server c))
               (sparesSetting "Server" "CacheExpire") configField_keeps_CacheExpire
               members old Hsel).
  - intros. apply Unmarshal_full; assumption.
  - intros Ht cfg Hcfg.
    assert (Hp : passPanics env s = false).
    { destruct (passPanics env s) eqn:Hp; [|reflexivity].
      destruct (syncBody_panicked env s Hp) as [Hn _]. fold s' in Hn. congruence. }
    rewrite syncLoop_cons, Hp, syncBody_testMode, Ht. cbn [orb].
    fold s'. rewrite Hcfg. reflexivity.
Qed.

(** ** The requests to the coordinator *)

(** Every request the loop sends is a [GetMeta] with the node's description,
    and with an answer to go on there is at least one. *)
Lemma syncLoop_requests (envs : list tickEnv) (s : Server) :
  exists n,
    requests (eventsOf (syncLoop envs s)) = repeat (GetMeta, nodeInfo s) n /\
    (envs <> [] -> (0 < n)%nat).
Proof.
  revert s. induction envs as [|env envs IH]; intros s.
  - exists 0%nat. split; [reflexivity | congruence].
  - rewrite syncLoop_cons.
    pose proof (syncBody_requests env s) as Hr.
    pose proof (syncBody_nodeInfo env s) as Hi.
    destruct (syncBody env s) as [s1 did]. cbn [fst snd] in *.
    destruct (passPanics env s || testMode s1).
    + exists 1%nat. cbn [eventsOf]. rewrite Hr. split; [reflexivity | lia].
    + destruct (GorseConfig (rest s1)) as [cfg|].
      * destruct (IH s1) as [n [Hn _]].
        exists (S n). rewrite eventsOf_after, !requests_app, Hr, Hn, Hi.
        split; [reflexivity | lia].
      * exists 1%nat. cbn [eventsOf]. rewrite requests_app, Hr.
        split; [reflexivity | lia].
Qed.

(** The claim C2 as it is worded fails: a run of [Sync] sends one request,
    a [GetMeta], and no [DescribeNode]. *)
Lemma C2_counterexample :
  let s := exampleServer true in
  let run := Sync [exampleEnv (blobStores "mysql://data" "redis://cache") true true] s in
  requests (eventsOf run) = [(GetMeta, nodeInfo s)] /\
  ~ In (Rpc DescribeNode (nodeInfo s)) (eventsOf run).
Proof.
  vm_compute. split; [reflexivity|].
  intros H. repeat (destruct H as [H | H]; [discriminate H|]). exact H.
Qed.

(** C2, amended. [Sync] sends no registration request of its own. Every
    request it sends to the coordinator is a [GetMeta] that carries the node
    type [ServerNode], the node's name and its HTTP port. On a server that
    holds a configuration, in a run of at least one pass, the first request
    is such a [GetMeta]; on a server that holds none, [Sync] panics at its
    first statement and sends no request. *)
Theorem C2_first_request_is_GetMeta (envs : list tickEnv) (s : Server) :
  (forall m info, In (m, info) (requests (eventsOf (Sync envs s))) ->
     m = GetMeta /\ info = nodeInfo s) /\
  (forall info, ~ In (Rpc DescribeNode info) (eventsOf (Sync envs s))) /\
  (forall env envs', envs = env :: envs' ->
     GorseConfig (rest s) <> None ->
     exists later,
       requests (eventsOf (Sync envs s)) = (GetMeta, nodeInfo s) :: later) /\
  (GorseConfig (rest s) = None -> requests (eventsOf (Sync envs s)) = []) /\
  nodeInfo s = {| NodeType_ := ServerNode; NodeName := serverName s;
                  NodeHttpPort := HttpPort (rest s) |}.
Proof.
  destruct (syncLoop_requests envs s) as [n [Hn Hpos]].
  assert (Hreq : requests (eventsOf (Sync envs s)) =
                 match GorseConfig (rest s) with
                 | None => []
                 | Some _ => repeat (GetMeta, nodeInfo s) n
                 end).
  { unfold Sync. destruct (GorseConfig (rest s)); [|reflexivity].
    rewrite eventsOf_after. exact Hn. }
  assert (Hall : forall m info, In (m, info) (requests (eventsOf (Sync envs s))) ->
                                m = GetMeta /\ info = nodeInfo s).
  { intros m info Hin. rewrite Hreq in Hin.
    destruct (GorseConfig (rest s)); [|destruct Hin].
    apply repeat_spec in Hin. injection Hin as -> ->. split; reflexivity. }
  split; [exact Hall|]. split; [|split; [|split; [|reflexivity]]].
  - intros info Hin.
    assert (Hr : In (DescribeNode, info) (requests (eventsOf (Sync envs s)))).
    { clear -Hin. induction (eventsOf (Sync envs s)) as [|e l IH]; [destruct Hin|].
      destruct Hin as [-> | Hin]; [left; reflexivity|].
      destruct e; simpl; auto. }
    apply Hall in Hr. destruct Hr as [Hr _]. discriminate Hr.
  - intros env envs' -> Hc. rewrite Hreq.
    destruct (GorseConfig (rest s)); [|congruence].
    destruct n as [|n]; [exfalso; assert (0 < 0)%nat by (apply Hpos; congruence); lia|].
    exists (repeat (GetMeta, nodeInfo s) n). reflexivity.
  - intros Hn0. rewrite Hreq, Hn0. reflexivity.
Qed.

(** ** The properties on the examples *)

Lemma C2_witness :
  exists later,
    requests (eventsOf (Sync [masterDown; masterDown] (exampleServer false))) =
      (GetMeta, {| NodeType_ := ServerNode; NodeName := "node-1"; NodeHttpPort := 8087 |})
      :: later.
Proof.
  destruct (C2_first_request_is_GetMeta [masterDown; masterDown] (exampleServer false))
    as (_ & _ & Hfirst & _).
  apply (Hfirst masterDown [masterDown] eq_refl). discriminate.
Defined.

Lemma C3_witness :
  fst (syncBody masterDown (connectedServer "mysql://data" "redis://cache" false))
    = connectedServer "mysql://data" "redis://cache" false /\
  (exists new,
     fst (json.Unmarshal (blobInterval tenSeconds)
            (Some (exampleConfig "mysql://data" "redis://cache"))) = Some new /\
     config.DataStore (config.Database new) = "mysql://data") /\
  syncLoop [nullBlob; masterDown] (connectedServer "mysql://data" "redis://cache" false)
    = Returned (fst (syncBody nullBlob (connectedServer "mysql://data" "redis://cache" false)))
        [Rpc GetMeta (nodeInfo (connectedServer "mysql://data" "redis://cache" false));
         Log Error "panic recovered"].
Proof.
  destruct (C3_config_after_pass masterDown []
              (connectedServer "mysql://data" "redis://cache" false)
              (exampleConfig "mysql://data" "redis://cache") eq_refl)
    as (Hdown & _ & _ & _ & _ & _ & Hmerge & _).
  split; [|split].
  - apply (Hdown (errors.Other "connection refused")). reflexivity.
  - destruct (Hmerge [("Master", json.Object [("MetaTimeout", json.Integer tenSeconds)])])
      as (new & Hnew & Hdatabase & _).
    exists new. split; [exact Hnew|].
    apply Hdatabase. intros k v [H | []]. injection H as <- _.
    intros Hsel. discriminate Hsel.
  - destruct (C3_config_after_pass nullBlob [masterDown]
                (connectedServer "mysql://data" "redis://cache" false)
                (exampleConfig "mysql://data" "redis://cache") eq_refl)
      as (_ & _ & _ & _ & _ & Hnull & _).
    destruct Hnull as [Hdid Hloop].
    + exists {| Config := Some json.Null |}. split; reflexivity.
    + rewrite Hloop, Hdid. reflexivity.
Defined.

Lemma C6_witness :
  HiddenItemsCache.IsHidden (cache.failing (errors.Other "timeout")) (atSecond 100)
    HiddenItemsCache.New ["x"]
  = (None, Some (errors.Trace (errors.Other "timeout"))).
Proof.
  pose proof (C6_IsHidden_error_iff_query_fails
                (cache.failing (errors.Other "timeout")) (atSecond 100)
                HiddenItemsCache.New ["x"]) as H.
  destruct (HiddenItemsCache.IsHidden _ _ _ _) as [answers err].
  destruct H as (_ & Hfail & _).
  destruct (Hfail (errors.Other "timeout") eq_refl) as [-> ->].
  reflexivity.
Defined.

Lemma C8_witness :
  Serve_openLocalStore corruptFile (exampleServer false) = Crashed [] /\
  nameOf (Serve_openLocalStore (firstStart true) (exampleServer false))
    = Some "brave_turing" /\
  hasExited (Serve_openLocalStore (firstStart false) (exampleServer false)) = true.
Proof.
  split; [|split].
  - destruct (C8_identity_bootstrap corruptFile (exampleServer false)) as (Hcrash & _).
    apply Hcrash. reflexivity.
  - destruct (C8_identity_bootstrap (firstStart true) (exampleServer false))
      as (_ & Hrun).
    destruct (Hrun {| path := "/tmp/gorse"; ServerName := "" |} eq_refl)
      as (_ & _ & _ & _ & _ & _ & Hname & _).
    apply Hname; reflexivity.
  - destruct (C8_identity_bootstrap (firstStart false) (exampleServer false))
      as (_ & Hrun).
    destruct (Hrun {| path := "/tmp/gorse"; ServerName := "" |} eq_refl)
      as (_ & _ & _ & _ & Hexit & _).
    apply Hexit. split; [reflexivity | discriminate].
Defined.

(** * Further properties *)

(** ** What [IsHidden] answers, against what the store holds *)

Lemma float64_le_total (a b : float64) : float64_le a b = false -> float64_le b a = true.
Proof.
  destruct a as [|x|], b as [|y|]; simpl; try congruence.
  intros H. apply Qle_bool_iff. destruct (Qlt_le_dec y x) as [Hlt | Hle].
  - apply Qlt_le_weak. exact Hlt.
  - apply Qle_bool_iff in Hle. congruence.
Qed.

Lemma Forall2_map_answers {A B : Type} (f : A -> B) (l : list A) :
  Forall2 (fun a b => b = f a) l (map f l).
Proof. induction l; simpl; constructor; auto. Qed.

Lemma Has_true (set : gset string) (x : string) :
  HiddenItemsCache.Has set x = true <-> x ∈ set.
Proof. unfold HiddenItemsCache.Has. apply bool_decide_eq_true. Qed.

Lemma elem_of_strsetNew (l : list string) (x : string) :
  x ∈ HiddenItemsCache.strsetNew l <-> In x l.
Proof.
  unfold HiddenItemsCache.strsetNew.
  rewrite elem_of_list_to_set, list_elem_of_In. tauto.
Qed.

(** The answers of [IsHidden] when the delta query returns [delta]. *)
Lemma IsHidden_answers (client : cache.Database) (now : time.Time)
    (hc : HiddenItemsCache.t) (members : list string) (delta : list cache.Scored) :
  cache.GetSortedByScore client cache.HiddenItemsV2
    (float64_of_int (time.Unix (HiddenItemsCache.updateTime hc)))
    (float64_of_int (time.Unix now)) = Ok delta ->
  exists bs,
    HiddenItemsCache.IsHidden client now hc members = (Some bs, None) /\
    Forall2 (fun m b => b = true <->
                        m ∈ HiddenItemsCache.hiddenItems hc \/
                        exists x, In x delta /\ cache.Id x = m)
            members bs.
Proof.
  intros Hq. unfold HiddenItemsCache.IsHidden. rewrite Hq.
  eexists. split; [reflexivity|].
  eapply Forall2_impl; [apply Forall2_map_answers|].
  intros m b ->. cbv beta.
  rewrite orb_true_iff, !Has_true, elem_of_strsetNew, In_RemoveScores. tauto.
Qed.

(** X1. Against a store that answers range queries by inclusive bounds,
    [IsHidden] succeeds and answers [true] for a member exactly when the
    snapshot holds it or the store holds an entry of it whose score lies
    between the second of the last refresh and the second of the call, both
    included. *)
Theorem IsHidden_exact (client : cache.Database) (content : list cache.Scored)
    (now : time.Time) (hc : HiddenItemsCache.t) (members : list string) :
  servesByScore client cache.HiddenItemsV2 content ->
  exists bs,
    HiddenItemsCache.IsHidden client now hc members = (Some bs, None) /\
    Forall2 (fun m b => b = true <->
                        m ∈ HiddenItemsCache.hiddenItems hc \/
                        exists x, In x content /\ cache.Id x = m /\
                          cache.inRange
                            (float64_of_int (time.Unix (HiddenItemsCache.updateTime hc)))
                            (float64_of_int (time.Unix now)) x = true)
            members bs.
Proof.
  intros Hs.
  destruct (Hs (float64_of_int (time.Unix (HiddenItemsCache.updateTime hc)))
               (float64_of_int (time.Unix now))) as [delta [Hq Hd]].
  destruct (IsHidden_answers client now hc members delta Hq) as [bs [Hrun Hbs]].
  exists bs. split; [exact Hrun|].
  eapply Forall2_impl; [exact Hbs|].
  intros m b Hb. rewrite Hb. split; intros [H | (x & Hx & Hid)]; auto; right; exists x.
  - apply Hd in Hx. tauto.
  - destruct Hid as [Hid Hr]. split; [apply Hd; tauto | exact Hid].
Qed.

Lemma IsHidden_exact_witness :
  exists bs,
    HiddenItemsCache.IsHidden storeWithXY (atSecond 150) HiddenItemsCache.New ["x"; "y"; "z"]
      = (Some bs, None) /\ length bs = 3%nat.
Proof.
  destruct (IsHidden_exact storeWithXY hiddenXY (atSecond 150) HiddenItemsCache.New
              ["x"; "y"; "z"]) as [bs [Hrun Hall]].
  - exact (memory_servesByScore
             (fun key => if String.eqb key cache.HiddenItemsV2 then hiddenXY else [])
             cache.HiddenItemsV2).
  - exists bs. split; [exact Hrun|].
    apply Forall2_length in Hall. symmetry. exact Hall.
Defined.

(** A cache whose snapshot covers the store misses no entry that is dated
    up to the second of the call. *)
Lemma IsHidden_finds_covered (client : cache.Database) (content : list cache.Scored)
    (now : time.Time) (hc : HiddenItemsCache.t) (members : list string)
    (x : cache.Scored) :
  servesByScore client cache.HiddenItemsV2 content ->
  snapshotCovers hc content ->
  In x content ->
  float64_le (cache.Score x) (float64_of_int (time.Unix now)) = true ->
  exists bs,
    HiddenItemsCache.IsHidden client now hc members = (Some bs, None) /\
    Forall2 (fun m b => m = cache.Id x -> b = true) members bs.
Proof.
  intros Hs Hcov Hx Hle.
  destruct (Hs (float64_of_int (time.Unix (HiddenItemsCache.updateTime hc)))
               (float64_of_int (time.Unix now))) as [delta [Hq Hd]].
  destruct (IsHidden_answers client now hc members delta Hq) as [bs [Hrun Hbs]].
  exists bs. split; [exact Hrun|].
  eapply Forall2_impl; [exact Hbs|].
  intros m b Hb ->. apply Hb.
  destruct (float64_le (float64_of_int (time.Unix (HiddenItemsCache.updateTime hc)))
                       (cache.Score x)) eqn:Hlo.
  - right. exists x. split; [|reflexivity]. apply Hd. split; [exact Hx|].
    unfold cache.inRange. rewrite Hlo, Hle. reflexivity.
  - left. apply (Hcov x Hx). exact Hlo.
Qed.

(** What a refresh that the store answers leaves in the cache. *)
Lemma sync_snapshot (client : cache.Database) (content : list cache.Scored)
    (now : time.Time) (hc : HiddenItemsCache.t) :
  servesByScore client cache.HiddenItemsV2 content ->
  let hc' := fst (HiddenItemsCache.sync client now hc) in
  HiddenItemsCache.updateTime hc' = now /\
  HiddenItemsCache.test hc' = HiddenItemsCache.test hc /\
  forall id, id ∈ HiddenItemsCache.hiddenItems hc' <->
             exists x, In x content /\ cache.Id x = id /\
                       float64_le (cache.Score x) (float64_of_int (time.Unix now)) = true.
Proof.
  intros Hs hc'.
  destruct (sync_served client content now hc Hs) as [l [Hl Hsync]].
  subst hc'. rewrite Hsync. simpl. repeat split.
  - rewrite elem_of_strsetNew, In_RemoveScores.
    intros (x & Hx & Hid). exists x. apply Hl in Hx. destruct Hx as [Hx Hr].
    unfold cache.inRange in Hr. simpl in Hr. tauto.
  - intros (x & Hx & Hid & Hle).
    rewrite elem_of_strsetNew, In_RemoveScores. exists x. split; [|exact Hid].
    apply Hl. split; [exact Hx|]. unfold cache.inRange. simpl. exact Hle.
Qed.

(** X2. No false negative after a refresh, for scores of any kind. The
    refresh and the call are answered by a store that holds, at the call,
    no entry older than the second of the refresh that it did not hold at
    the refresh. Then every member that has an entry dated up to the second
    of the call is answered [true]. *)
Theorem IsHidden_no_false_negative
    (atRefresh atCall : cache.Database) (content0 content1 : list cache.Scored)
    (hc0 : HiddenItemsCache.t) (refresh now : time.Time)
    (members : list string) (x : cache.Scored) :
  servesByScore atRefresh cache.HiddenItemsV2 content0 ->
  servesByScore atCall cache.HiddenItemsV2 content1 ->
  (forall y, In y content1 ->
     float64_lt (cache.Score y) (float64_of_int (time.Unix refresh)) -> In y content0) ->
  In x content1 ->
  float64_le (cache.Score x) (float64_of_int (time.Unix now)) = true ->
  exists bs,
    HiddenItemsCache.IsHidden atCall now
      (fst (HiddenItemsCache.sync atRefresh refresh hc0)) members = (Some bs, None) /\
    Forall2 (fun m b => m = cache.Id x -> b = true) members bs.
Proof.
  intros Hs0 Hs1 Hhist Hx Hle.
  apply (IsHidden_finds_covered atCall content1); try assumption.
  destruct (sync_snapshot atRefresh content0 refresh hc0 Hs0) as (Hu & _ & Hsnap).
  intros y Hy Hold. rewrite Hu in Hold. apply Hsnap.
  exists y. split; [apply Hhist; assumption|]. split; [reflexivity|].
  apply float64_le_total. exact Hold.
Qed.

Lemma IsHidden_no_false_negative_witness :
  exists bs,
    HiddenItemsCache.IsHidden storeWithXY (atSecond 202)
      (fst (HiddenItemsCache.sync storeWithX (atSecond 150) HiddenItemsCache.New))
      ["y"; "x"] = (Some bs, None) /\
    Forall2 (fun m b => m = "y" -> b = true) ["y"; "x"] bs.
Proof.
  apply (IsHidden_no_false_negative storeWithX storeWithXY hiddenX hiddenXY
           HiddenItemsCache.New (atSecond 150) (atSecond 202) ["y"; "x"]
           {| cache.Id := "y"; cache.Score := Fin (2011 # 10) |}).
  - exact (memory_servesByScore
             (fun key => if String.eqb key cache.HiddenItemsV2 then hiddenX else [])
             cache.HiddenItemsV2).
  - exact (memory_servesByScore
             (fun key => if String.eqb key cache.HiddenItemsV2 then hiddenXY else [])
             cache.HiddenItemsV2).
  - intros y [<- | [<- | []]] Hold.
    + left. reflexivity.
    + vm_compute in Hold. discriminate Hold.
  - right. left. reflexivity.
  - reflexivity.
Defined.

(** X3. A snapshot keeps an item hidden until the next refresh: an item that
    the store held at the refresh, dated up to the second of the refresh, is
    answered [true] by every later call whose delta query succeeds, whatever
    the store holds by then, be it nothing. *)
Theorem IsHidden_snapshot_outlives_store
    (atRefresh atCall : cache.Database) (content0 delta : list cache.Scored)
    (hc0 : HiddenItemsCache.t) (refresh now : time.Time)
    (members : list string) (x : cache.Scored) :
  servesByScore atRefresh cache.HiddenItemsV2 content0 ->
  In x content0 ->
  float64_le (cache.Score x) (float64_of_int (time.Unix refresh)) = true ->
  cache.GetSortedByScore atCall cache.HiddenItemsV2
    (float64_of_int (time.Unix refresh)) (float64_of_int (time.Unix now)) = Ok delta ->
  exists bs,
    HiddenItemsCache.IsHidden atCall now
      (fst (HiddenItemsCache.sync atRefresh refresh hc0)) members = (Some bs, None) /\
    Forall2 (fun m b => m = cache.Id x -> b = true) members bs.
Proof.
  intros Hs0 Hx Hle Hq.
  destruct (sync_snapshot atRefresh content0 refresh hc0 Hs0) as (Hu & _ & Hsnap).
  rewrite <- Hu in Hq.
  destruct (IsHidden_answers atCall now _ members delta Hq) as [bs [Hrun Hbs]].
  exists bs. split; [exact Hrun|].
  eapply Forall2_impl; [exact Hbs|].
  intros m b Hb ->. apply Hb. left. apply Hsnap. exists x. auto.
Qed.

Lemma IsHidden_snapshot_outlives_store_witness :
  exists bs,
    HiddenItemsCache.IsHidden emptyStore (atSecond 200)
      (fst (HiddenItemsCache.sync storeWithX (atSecond 150) HiddenItemsCache.New))
      ["x"] = (Some bs, None) /\
    Forall2 (fun m b => m = "x" -> b = true) ["x"] bs.
Proof.
  apply (IsHidden_snapshot_outlives_store storeWithX emptyStore hiddenX []
           HiddenItemsCache.New (atSecond 150) (atSecond 200) ["x"]
           {| cache.Id := "x"; cache.Score := float64_of_int 100 |}).
  - exact (memory_servesByScore
             (fun key => if String.eqb key cache.HiddenItemsV2 then hiddenX else [])
             cache.HiddenItemsV2).
  - left. reflexivity.
  - reflexivity.
  - reflexivity.
Defined.

(** X4. A cache that was never refreshed misses nothing either: its update
    time is the zero time, so the delta query of [IsHidden] reaches back to
    the year 1, and every entry dated from then up to the second of the call
    is answered [true]. *)
Theorem IsHidden_before_first_refresh
    (client : cache.Database) (content : list cache.Scored) (now : time.Time)
    (members : list string) (x : cache.Scored) :
  servesByScore client cache.HiddenItemsV2 content ->
  In x content ->
  float64_le (float64_of_int (time.Unix time.Zero)) (cache.Score x) = true ->
  float64_le (cache.Score x) (float64_of_int (time.Unix now)) = true ->
  exists bs,
    HiddenItemsCache.IsHidden client now HiddenItemsCache.New members = (Some bs, None) /\
    Forall2 (fun m b => m = cache.Id x -> b = true) members bs.
Proof.
  intros Hs Hx Hlo Hhi.
  destruct (Hs (float64_of_int (time.Unix (HiddenItemsCache.updateTime HiddenItemsCache.New)))
               (float64_of_int (time.Unix now))) as [delta [Hq Hd]].
  destruct (IsHidden_answers client now HiddenItemsCache.New members delta Hq)
    as [bs [Hrun Hbs]].
  exists bs. split; [exact Hrun|].
  eapply Forall2_impl; [exact Hbs|].
  intros m b Hb ->. apply Hb. right. exists x. split; [|reflexivity].
  apply Hd. split; [exact Hx|].
  unfold cache.inRange. apply andb_true_intro. split; [exact Hlo | exact Hhi].
Qed.

Lemma IsHidden_before_first_refresh_witness :
  exists bs,
    HiddenItemsCache.IsHidden storeWithX (atSecond 100) HiddenItemsCache.New ["x"]
      = (Some bs, None) /\
    Forall2 (fun m b => m = "x" -> b = true) ["x"] bs.
Proof.
  apply (IsHidden_before_first_refresh storeWithX hiddenX (atSecond 100) ["x"]
           {| cache.Id := "x"; cache.Score := float64_of_int 100 |}).
  - exact (memory_servesByScore
             (fun key => if String.eqb key cache.HiddenItemsV2 then hiddenX else [])
             cache.HiddenItemsV2).
  - left. reflexivity.
  - reflexivity.
  - reflexivity.
Defined.

(** ** What the popular items cache serves after a refresh *)

Lemma collect_snoc (items : list cache.Scored) (x : cache.Scored) :
  PopularItemsCache.collect (items ++ [x]) =
  <[cache.Id x := cache.Score x]> (PopularItemsCache.collect items).
Proof. unfold PopularItemsCache.collect. rewrite fold_left_app. reflexivity. Qed.

Lemma collect_lookup_absent (items : list cache.Scored) (k : string) :
  ~ In k (map cache.Id items) -> PopularItemsCache.collect items !! k = None.
Proof.
  induction items as [|x items IH] using rev_ind; intros Hk; [reflexivity|].
  rewrite collect_snoc. rewrite map_app, in_app_iff in Hk. simpl in Hk.
  rewrite lookup_insert_ne by (intros E; apply Hk; right; left; exact E).
  apply IH. tauto.
Qed.

Lemma collect_lookup_last (before after : list cache.Scored) (x : cache.Scored) :
  ~ In (cache.Id x) (map cache.Id after) ->
  PopularItemsCache.collect (before ++ x :: after) !! cache.Id x = Some (cache.Score x).
Proof.
  induction after as [|y after IH] using rev_ind; intros Hx.
  - rewrite collect_snoc. apply lookup_insert_eq.
  - rewrite map_app, in_app_iff in Hx. simpl in Hx.
    change (before ++ x :: after ++ [y]) with (before ++ (x :: after) ++ [y]).
    rewrite app_assoc, collect_snoc.
    rewrite lookup_insert_ne by (intros E; apply Hx; right; left; exact E).
    apply IH. tauto.
Qed.

Lemma collect_lookup_NoDup (items : list cache.Scored) (x : cache.Scored) :
  List.NoDup (map cache.Id items) -> In x items ->
  PopularItemsCache.collect items !! cache.Id x = Some (cache.Score x).
Proof.
  intros Hnd Hx. apply in_split in Hx. destruct Hx as (before & after & ->).
  apply collect_lookup_last.
  rewrite map_app in Hnd. simpl in Hnd. apply NoDup_remove_2 in Hnd.
  rewrite in_app_iff in Hnd. tauto.
Qed.

(** X5. What a look-up returns after a refresh that succeeded on [items],
    whatever the cache held before: for an identifier with several entries
    the score of the last one; when the identifiers are distinct, for every
    entry its own score; and 0.0 for every identifier without an entry, also
    one that the cache served before the refresh. *)
Theorem GetSortedScore_after_refresh
    (client : cache.Database) (items : list cache.Scored) (sc0 : PopularItemsCache.t) :
  cache.GetSorted client (cache.Key [cache.PopularItems]) 0 (-1) = Ok items ->
  let look member :=
    snd (PopularItemsCache.GetSortedScore client
           (fst (PopularItemsCache.sync client sc0)) member) in
  (forall before x after,
      items = before ++ x :: after -> ~ In (cache.Id x) (map cache.Id after) ->
      look (cache.Id x) = cache.Score x) /\
  (List.NoDup (map cache.Id items) ->
   forall x, In x items -> look (cache.Id x) = cache.Score x) /\
  (forall member, ~ In member (map cache.Id items) -> look member = float64_zero).
Proof.
  intros Hq look. subst look. cbv beta. split; [|split].
  - intros before x after -> Hlast.
    rewrite (GetSortedScore_refreshed _ _ _ _ Hq), collect_lookup_last by exact Hlast.
    reflexivity.
  - intros Hnd x Hx.
    rewrite (GetSortedScore_refreshed _ _ _ _ Hq), collect_lookup_NoDup by assumption.
    reflexivity.
  - intros member Habsent.
    rewrite (GetSortedScore_refreshed _ _ _ _ Hq), collect_lookup_absent by assumption.
    reflexivity.
Qed.

Lemma GetSortedScore_after_refresh_witness :
  snd (PopularItemsCache.GetSortedScore storeWithAB
         (fst (PopularItemsCache.sync storeWithAB
                 {| PopularItemsCache.scores := {[ "old" := Fin 9 ]};
                    PopularItemsCache.test := false |})) "old") = float64_zero.
Proof.
  destruct (GetSortedScore_after_refresh storeWithAB (cache.sortByScore sourceAB)
              {| PopularItemsCache.scores := {[ "old" := Fin 9 ]};
                 PopularItemsCache.test := false |} eq_refl) as (_ & _ & Habsent).
  apply Habsent. vm_compute. intros [H | [H | []]]; discriminate H.
Defined.

(** X6. The identifiers that the snapshot holds after a refresh are exactly
    those of the entries that the query returned, so the snapshot is never
    larger than the result. *)
Theorem sync_snapshot_keys
    (client : cache.Database) (items : list cache.Scored) (sc0 : PopularItemsCache.t) :
  cache.GetSorted client (cache.Key [cache.PopularItems]) 0 (-1) = Ok items ->
  let sc := fst (PopularItemsCache.sync client sc0) in
  dom (PopularItemsCache.scores sc) = list_to_set (map cache.Id items) /\
  (size (PopularItemsCache.scores sc) <= length items)%nat.
Proof.
  intros Hq sc. subst sc. rewrite (sync_refreshed _ _ _ Hq). simpl.
  clear Hq. induction items as [|x items IH] using rev_ind.
  - unfold PopularItemsCache.collect. simpl. split.
    + rewrite dom_empty_L. reflexivity.
    + rewrite map_size_empty. lia.
  - destruct IH as [Hdom Hsize]. rewrite collect_snoc. split.
    + rewrite dom_insert_L, Hdom, map_app, list_to_set_app_L. simpl.
      rewrite (right_id_L ∅ (∪)). apply (comm_L (∪)).
    + rewrite length_app. simpl.
      destruct (PopularItemsCache.collect items !! cache.Id x) eqn:E.
      * rewrite map_size_insert_Some by eauto. lia.
      * rewrite map_size_insert_None by exact E. lia.
Qed.

Lemma sync_snapshot_keys_witness :
  dom (PopularItemsCache.scores
         (fst (PopularItemsCache.sync storeWithAB PopularItemsCache.New)))
  = list_to_set (map cache.Id (cache.sortByScore sourceAB)).
Proof.
  destruct (sync_snapshot_keys storeWithAB (cache.sortByScore sourceAB)
              PopularItemsCache.New eq_refl) as [Hdom _].
  exact Hdom.
Defined.


(** X7. In test mode a look-up reads through to the store: when the store
    answers with entries of distinct identifiers, the look-up of an entry
    returns the score that the store holds now, whatever the cache held, and
    leaves the refreshed cache; when the store fails, the look-up falls back
    on the snapshot held, which it leaves as it was. *)
Theorem GetSortedScore_test_mode_reads_through
    (client : cache.Database) (sc : PopularItemsCache.t) :
  PopularItemsCache.test sc = true ->
  (forall items x,
      cache.GetSorted client (cache.Key [cache.PopularItems]) 0 (-1) = Ok items ->
      List.NoDup (map cache.Id items) -> In x items ->
      PopularItemsCache.GetSortedScore client sc (cache.Id x) =
        ({| PopularItemsCache.scores := PopularItemsCache.collect items;
            PopularItemsCache.test := true |}, [], cache.Score x)) /\
  (forall e member,
      cache.GetSorted client (cache.Key [cache.PopularItems]) 0 (-1) = Err e ->
      PopularItemsCache.GetSortedScore client sc member =
        (sc,
         if errors.IsNotAssigned e then [] else [Log Error "failed to get popular items"],
         default float64_zero (PopularItemsCache.scores sc !! member))).
Proof.
  intros Ht. split.
  - intros items x Hq Hnd Hx. unfold PopularItemsCache.GetSortedScore.
    rewrite Ht, (sync_refreshed _ _ _ Hq), Ht. cbn.
    rewrite collect_lookup_NoDup by assumption. reflexivity.
  - intros e member Hq. unfold PopularItemsCache.GetSortedScore, PopularItemsCache.sync.
    rewrite Ht, Hq. reflexivity.
Qed.

Lemma GetSortedScore_test_mode_reads_through_witness :
  snd (PopularItemsCache.GetSortedScore storeWithAB PopularItemsCache.newForTest "b")
  = Fin 3.
Proof.
  destruct (GetSortedScore_test_mode_reads_through storeWithAB
              PopularItemsCache.newForTest eq_refl) as [Hread _].
  change "b" with (cache.Id {| cache.Id := "b"; cache.Score := Fin 3 |}).
  rewrite (Hread (cache.sortByScore sourceAB)
             {| cache.Id := "b"; cache.Score := Fin 3 |} eq_refl).
  - reflexivity.
  - vm_compute. repeat constructor; simpl; intuition discriminate.
  - left. reflexivity.
Defined.

(** ** Runs of [Sync] over many passes *)

Lemma syncBody_sameIdentity (env : tickEnv) (s : Server) :
  sameIdentity s (fst (syncBody env s)).
Proof. unfold sameIdentity. sync_cases; repeat split; reflexivity. Qed.

Lemma sameIdentity_refl (s : Server) : sameIdentity s s.
Proof. unfold sameIdentity. tauto. Qed.

Lemma sameIdentity_trans (a b c : Server) :
  sameIdentity a b -> sameIdentity b c -> sameIdentity a c.
Proof. unfold sameIdentity. intuition congruence. Qed.

(** X8. Whatever the outside world answers and however long it runs, [Sync]
    never writes the node's name, the master's host and port, the test mode
    flag, the path of the local cache file or the HTTP host and port. *)
Theorem Sync_keeps_identity (envs : list tickEnv) (s : Server) :
  sameIdentity s (serverOf (Sync envs s)).
Proof.
  unfold Sync. destruct (GorseConfig (rest s)) as [c|]; [|apply sameIdentity_refl].
  rewrite serverOf_after. clear c. revert s.
  induction envs as [|env envs IH]; intros s; [apply sameIdentity_refl|].
  rewrite syncLoop_cons.
  pose proof (syncBody_sameIdentity env s) as Hone.
  destruct (syncBody env s) as [s1 did]. cbn [fst snd] in *.
  destruct (passPanics env s || testMode s1); [exact Hone|].
  destruct (GorseConfig (rest s1)) as [cfg|]; [|exact Hone].
  rewrite serverOf_after. eapply sameIdentity_trans; [exact Hone | apply IH].
Qed.

(** The loop outside test mode, on a server that holds a configuration. *)
Lemma syncLoop_outside_test (envs : list tickEnv) (s : Server) :
  testMode s = false ->
  GorseConfig (rest s) <> None ->
  (hasReturned (syncLoop envs s) = true <-> Exists (pullsNull (nodeInfo s)) envs) /\
  (hasReturned (syncLoop envs s) = false ->
     length (requests (eventsOf (syncLoop envs s))) = length envs /\
     count isSleep (eventsOf (syncLoop envs s)) = length envs) /\
  (hasReturned (syncLoop envs s) = true ->
     GorseConfig (rest (serverOf (syncLoop envs s))) = None /\
     exists before, eventsOf (syncLoop envs s) = before ++ recovered).
Proof.
  revert s. induction envs as [|env envs IH]; intros s Ht Hc.
  - cbn [syncLoop hasReturned]. split; [|split].
    + split; [discriminate | intros H; inversion H].
    + intros _. split; reflexivity.
    + discriminate.
  - rewrite syncLoop_cons, List.Exists_cons.
    destruct (passPanics env s) eqn:Hp.
    + cbn [orb hasReturned serverOf eventsOf].
      destruct (syncBody_panicked env s Hp) as [Hn Hd].
      split; [|split].
      * split; [|reflexivity]. intros _. left. apply passPanics_iff. exact Hp.
      * discriminate.
      * intros _. split; [exact Hn|]. exists [Rpc GetMeta (nodeInfo s)]. exact Hd.
    + pose proof (syncBody_keeps_config env s Hc Hp) as Hk.
      pose proof (syncBody_testMode env s) as Hm.
      pose proof (syncBody_nodeInfo env s) as Hi.
      pose proof (syncBody_requests env s) as Hr.
      pose proof (syncBody_no_sleep env s) as Hz.
      assert (Hnot : ~ pullsNull (nodeInfo s) env).
      { intros H. apply passPanics_iff in H. congruence. }
      destruct (syncBody env s) as [s1 did]. cbn [fst snd] in *.
      rewrite Hm, Ht. cbn [orb].
      destruct (GorseConfig (rest s1)) as [cfg|] eqn:Hcfg; [|congruence].
      destruct (IH s1) as (I1 & I2 & I3); [congruence | congruence |].
      rewrite Hi in I1.
      rewrite hasReturned_after, serverOf_after, eventsOf_after.
      split; [|split].
      * rewrite I1. tauto.
      * intros Hrun. destruct (I2 Hrun) as [Hq Hs].
        rewrite !requests_app, !count_app, !length_app, Hr, Hz, Hq, Hs.
        split; reflexivity.
      * intros Hrun. destruct (I3 Hrun) as [Hn [before Hb]].
        split; [exact Hn|].
        exists ((did ++ [Sleep (config.MetaTimeout (config.Master cfg))]) ++ before).
        rewrite Hb, app_assoc. reflexivity.
Qed.

(** X9. Outside test mode, on a server that holds a configuration, [Sync]
    returns if and only if the master answers a pull with the blob [null]:
    the pass then panics, the last thing [Sync] does is the line of the
    recovery, and the server is left without configuration. As long as no
    pull is answered with [null], [Sync] is still in its loop after any
    number of passes, and it has sent one [GetMeta] request and slept once
    for each pass. *)
Theorem Sync_loops_for_ever (envs : list tickEnv) (s : Server) :
  testMode s = false ->
  GorseConfig (rest s) <> None ->
  (hasReturned (Sync envs s) = true <-> Exists (pullsNull (nodeInfo s)) envs) /\
  (Forall (fun env => ~ pullsNull (nodeInfo s) env) envs ->
     hasReturned (Sync envs s) = false /\
     length (requests (eventsOf (Sync envs s))) = length envs /\
     count isSleep (eventsOf (Sync envs s)) = length envs) /\
  (hasReturned (Sync envs s) = true ->
     GorseConfig (rest (serverOf (Sync envs s))) = None /\
     exists before, eventsOf (Sync envs s) = before ++ recovered).
Proof.
  intros Ht Hc.
  destruct (syncLoop_outside_test envs s Ht Hc) as (H1 & H2 & H3).
  unfold Sync. destruct (GorseConfig (rest s)) as [c|]; [|congruence].
  rewrite hasReturned_after, serverOf_after, eventsOf_after.
  split; [exact H1|]. split.
  - intros Hnone.
    assert (Hrun : hasReturned (syncLoop envs s) = false).
    { destruct (hasReturned (syncLoop envs s)); [|reflexivity].
      exfalso. assert (He : Exists (pullsNull (nodeInfo s)) envs) by (apply H1; reflexivity).
      apply List.Exists_exists in He. destruct He as (env & Hin & Hnull).
      rewrite List.Forall_forall in Hnone. apply (Hnone env Hin Hnull). }
    destruct (H2 Hrun) as [Hq Hs].
    split; [exact Hrun|]. split; [exact Hq | exact Hs].
  - intros Hrun. destruct (H3 Hrun) as [Hn [before Hb]].
    split; [exact Hn|].
    exists (Log Info "start meta sync" :: before). rewrite Hb. reflexivity.
Qed.

Lemma Sync_loops_for_ever_witness :
  hasReturned
    (Sync [masterDown; exampleEnv (blobStores "mysql://data" "redis://cache") true true]
       (exampleServer false)) = false /\
  hasReturned (Sync [masterDown; nullBlob; masterDown] (exampleServer false)) = true.
Proof.
  split.
  - destruct (Sync_loops_for_ever
                [masterDown; exampleEnv (blobStores "mysql://data" "redis://cache") true true]
                (exampleServer false) eq_refl) as (_ & Hrun & _); [discriminate|].
    destruct Hrun as [Hrun _]; [|exact Hrun].
    repeat constructor; intros (meta & Hm & Hn); vm_compute in Hm;
      try discriminate Hm; injection Hm as <-; discriminate Hn.
  - destruct (Sync_loops_for_ever [masterDown; nullBlob; masterDown]
                (exampleServer false) eq_refl) as (Hiff & _); [discriminate|].
    apply Hiff. right. left. exists {| Config := Some json.Null |}. split; reflexivity.
Defined.

Lemma syncBody_provenance (env : tickEnv) (s : Server) :
  let s' := fst (syncBody env s) in
  let did := snd (syncBody env s) in
  (dataPath s' = dataPath s \/ In (OpenData (dataPath s')) did) /\
  (cachePath s' = cachePath s \/ In (OpenCache (cachePath s')) did) /\
  (DataClient (rest s') = DataClient (rest s) \/ (0 < count isOpenData did)%nat) /\
  (CacheClient (rest s') = CacheClient (rest s) \/ (0 < count isOpenCache did)%nat).
Proof.
  unfold count. sync_cases; repeat split; auto;
    try (right; simpl; tauto); try (right; simpl; lia).
Qed.

(** X10. At every point of a run of [Sync], a recorded store address is the
    one the run started with or one that the run has opened, and a client
    is the one the run started with unless the run has opened that store. *)
Theorem Sync_records_only_opened_addresses (envs : list tickEnv) (s : Server) :
  let s' := serverOf (Sync envs s) in
  let did := eventsOf (Sync envs s) in
  (dataPath s' = dataPath s \/ In (OpenData (dataPath s')) did) /\
  (cachePath s' = cachePath s \/ In (OpenCache (cachePath s')) did) /\
  (DataClient (rest s') = DataClient (rest s) \/ (0 < count isOpenData did)%nat) /\
  (CacheClient (rest s') = CacheClient (rest s) \/ (0 < count isOpenCache did)%nat).
Proof.
  unfold Sync. destruct (GorseConfig (rest s)) as [c|]; [|cbn; tauto].
  rewrite serverOf_after, eventsOf_after. clear c.
  assert (Hloop :
    (dataPath (serverOf (syncLoop envs s)) = dataPath s \/
     In (OpenData (dataPath (serverOf (syncLoop envs s)))) (eventsOf (syncLoop envs s))) /\
    (cachePath (serverOf (syncLoop envs s)) = cachePath s \/
     In (OpenCache (cachePath (serverOf (syncLoop envs s)))) (eventsOf (syncLoop envs s))) /\
    (DataClient (rest (serverOf (syncLoop envs s))) = DataClient (rest s) \/
     (0 < count isOpenData (eventsOf (syncLoop envs s)))%nat) /\
    (CacheClient (rest (serverOf (syncLoop envs s))) = CacheClient (rest s) \/
     (0 < count isOpenCache (eventsOf (syncLoop envs s)))%nat)).
  { revert s. induction envs as [|env envs IH]; intros s; [simpl; tauto|].
    rewrite syncLoop_cons. pose proof (syncBody_provenance env s) as Hone.
    destruct (syncBody env s) as [s1 did1]. cbn [fst snd] in *. cbv zeta in Hone.
    destruct (passPanics env s || testMode s1); [exact Hone|].
    destruct Hone as (Hd & Hc & Hdc & Hcc).
    destruct (GorseConfig (rest s1)) as [cfg|].
    - rewrite serverOf_after, eventsOf_after.
      destruct (IH s1) as (Id & Ic & Idc & Icc).
      rewrite !count_app. repeat split.
      + destruct Id as [Id | Id]; [rewrite Id|].
        * destruct Hd as [Hd | Hd]; [left; exact Hd | right].
          apply in_or_app. left. apply in_or_app. left. exact Hd.
        * right. apply in_or_app. right. exact Id.
      + destruct Ic as [Ic | Ic]; [rewrite Ic|].
        * destruct Hc as [Hc | Hc]; [left; exact Hc | right].
          apply in_or_app. left. apply in_or_app. left. exact Hc.
        * right. apply in_or_app. right. exact Ic.
      + destruct Idc as [Idc | Idc]; [rewrite Idc|right; lia].
        destruct Hdc as [Hdc | Hdc]; [left; exact Hdc | right; lia].
      + destruct Icc as [Icc | Icc]; [rewrite Icc|right; lia].
        destruct Hcc as [Hcc | Hcc]; [left; exact Hcc | right; lia].
    - cbn [serverOf eventsOf]. rewrite !count_app. repeat split.
      + destruct Hd as [Hd | Hd]; [left; exact Hd | right; apply in_or_app; left; exact Hd].
      + destruct Hc as [Hc | Hc]; [left; exact Hc | right; apply in_or_app; left; exact Hc].
      + destruct Hdc as [Hdc | Hdc]; [left; exact Hdc | right; lia].
      + destruct Hcc as [Hcc | Hcc]; [left; exact Hcc | right; lia]. }
  destruct Hloop as (H1 & H2 & H3 & H4).
  cbv zeta. rewrite !count_app. unfold count at 1 3. simpl.
  repeat split.
  - destruct H1 as [H1 | H1]; [left; exact H1 | right; right; exact H1].
  - destruct H2 as [H2 | H2]; [left; exact H2 | right; right; exact H2].
  - exact H3.
  - exact H4.
Qed.

Lemma syncBody_pull_fails (env : tickEnv) (s : Server) :
  pullFails env ->
  syncBody env s = (s, [Rpc GetMeta (nodeInfo s); Log Error "failed to get meta"]) /\
  passPanics env s = false.
Proof.
  intros H. destruct (H (nodeInfo s)) as [e He].
  unfold syncBody, passPanics, syncPass. rewrite He. split; reflexivity.
Qed.

(** X11. While the master cannot be reached, [Sync] leaves the server exactly
    as it was and opens no store. On a server that holds a configuration it
    logs one error for each request it sent; on a server that holds none it
    sends no request and logs the one error of the recovery. *)
Theorem Sync_master_unreachable (envs : list tickEnv) (s : Server) :
  Forall pullFails envs ->
  serverOf (Sync envs s) = s /\
  count isOpenData (eventsOf (Sync envs s)) = 0%nat /\
  count isOpenCache (eventsOf (Sync envs s)) = 0%nat /\
  count isErrorLog (eventsOf (Sync envs s)) =
    (length (requests (eventsOf (Sync envs s))) +
     match GorseConfig (rest s) with None => 1 | Some _ => 0 end)%nat.
Proof.
  intros Hdown. unfold Sync.
  destruct (GorseConfig (rest s)) as [c|] eqn:Hc; [|repeat split].
  assert (Hloop : serverOf (syncLoop envs s) = s /\
                  count isOpenData (eventsOf (syncLoop envs s)) = 0%nat /\
                  count isOpenCache (eventsOf (syncLoop envs s)) = 0%nat /\
                  count isErrorLog (eventsOf (syncLoop envs s)) =
                    length (requests (eventsOf (syncLoop envs s)))).
  { induction Hdown as [|env envs Henv Hdown IH]; [repeat split|].
    rewrite syncLoop_cons.
    destruct (syncBody_pull_fails env s Henv) as [-> ->]. cbn [fst snd orb].
    destruct (testMode s); [repeat split|].
    rewrite Hc. destruct IH as (H1 & H2 & H3 & H4).
    rewrite serverOf_after, eventsOf_after, !requests_app, !count_app, length_app.
    rewrite H2, H3, H4. repeat split; try exact H1; reflexivity. }
  destruct Hloop as (H1 & H2 & H3 & H4).
  rewrite serverOf_after, eventsOf_after, requests_app, !count_app, length_app.
  rewrite H2, H3, H4. repeat split; try exact H1. simpl. lia.
Qed.

Lemma Sync_master_unreachable_witness :
  serverOf (Sync [masterDown; masterDown; masterDown] (exampleServer false))
  = exampleServer false.
Proof.
  destruct (Sync_master_unreachable [masterDown; masterDown; masterDown]
              (exampleServer false)) as [Hsame _].
  - repeat constructor; intros info; eexists; reflexivity.
  - exact Hsame.
Defined.

(** X12. A pass stops at its first failure: it logs at most one error, and
    when it logs one that is the last thing it does, so no store is opened
    after a failure. *)
Theorem syncBody_stops_at_first_error (env : tickEnv) (s : Server) :
  let did := snd (syncBody env s) in
  (count isErrorLog did <= 1)%nat /\
  (forall e, In e (removelast did) -> isErrorLog e = false).
Proof.
  unfold count. sync_cases; split; try lia;
    intros ev Hev; simpl in Hev; intuition (subst; reflexivity).
Qed.



(** ** The name that [Serve] settles *)

(** X14. When the drawn name is not empty, [Serve] never goes on with an
    empty name: the name is the loaded one or the drawn one. [Serve] writes
    no other field of the server, and the last thing it does before it
    connects to the master is the "start server" log line. *)
Theorem Serve_name_is_set (env : bootEnv) (s s' : Server) (did : list event) :
  randomName env <> "" ->
  Serve_openLocalStore env s = Named s' did ->
  serverName s' <> "" /\
  (option_map ServerName (fst (loadLocalCache env (cacheFile s))) = Some (serverName s') \/
   serverName s' = randomName env) /\
  s' = withServerName (serverName s') s /\
  exists before, did = before ++ [Log Info "start server"].
Proof.
  intros Hdrawn. unfold Serve_openLocalStore.
  destruct (loadLocalCache env (cacheFile s)) as [[state|] err]; [|discriminate]. simpl.
  destruct (String.eqb (ServerName state) "") eqn:Hname.
  - destruct (writeLocalCache env _); [discriminate|].
    intros H. injection H as <- <-. simpl.
    split; [exact Hdrawn|]. split; [right; reflexivity|]. split; [reflexivity|].
    eexists (_ ++ [_]). rewrite <- app_assoc. reflexivity.
  - apply String.eqb_neq in Hname.
    intros H. injection H as <- <-. simpl.
    split; [exact Hname|]. split; [left; reflexivity|]. split; [reflexivity|].
    eexists. reflexivity.
Qed.

Lemma Serve_name_is_set_witness :
  exists s' did,
    Serve_openLocalStore (firstStart true) (exampleServer false) = Named s' did /\
    serverName s' <> "".
Proof.
  eexists. eexists. split; [reflexivity|].
  eapply (Serve_name_is_set (firstStart true) (exampleServer false)).
  - vm_compute. discriminate.
  - reflexivity.
Defined.

(** ** The refresh goroutines *)

Lemma loopEvents_andThen {C : Type} (pre : list event) (r : refreshing C) :
  loopEvents (andThen pre r) = pre ++ loopEvents r.
Proof. destruct r; reflexivity. Qed.

Lemma popular_sync_quiet (client : cache.Database) (sc : PopularItemsCache.t) :
  count isSleep (snd (PopularItemsCache.sync client sc)) = 0%nat /\
  count isDebugLog (snd (PopularItemsCache.sync client sc)) = 0%nat /\
  PopularItemsCache.test (fst (PopularItemsCache.sync client sc)) = PopularItemsCache.test sc.
Proof.
  unfold PopularItemsCache.sync.
  destruct (cache.GetSorted _ _ _ _) as [items | e]; [repeat split|].
  destruct (errors.IsNotAssigned e); repeat split.
Qed.

Lemma hidden_sync_quiet (client : cache.Database) (now : time.Time)
    (hc : HiddenItemsCache.t) :
  count isSleep (snd (HiddenItemsCache.sync client now hc)) = 0%nat /\
  count isDebugLog (snd (HiddenItemsCache.sync client now hc)) = 0%nat /\
  HiddenItemsCache.test (fst (HiddenItemsCache.sync client now hc)) = HiddenItemsCache.test hc.
Proof.
  unfold HiddenItemsCache.sync.
  destruct (cache.GetSortedByScore _ _ _ _) as [score | e].
  - destruct (0 <? length score)%nat; repeat split.
  - destruct (errors.IsNotAssigned e); repeat split.
Qed.

(** The loop started from a cache whose snapshot is the one of [acc], or
    [base] when [acc] is empty. *)
Lemma popularLoop_from (turns : list RestServer) :
  forall (sc : PopularItemsCache.t) (acc : option (list cache.Scored))
         (base : gmap string float64),
    PopularItemsCache.scores sc =
      match acc with Some items => PopularItemsCache.collect items | None => base end ->
    match popularLoop turns sc with
    | Alive sc' did =>
        Forall (fun s => CacheClient s <> None /\ GorseConfig s <> None) turns /\
        PopularItemsCache.scores sc' =
          match fold_left
                  (fun acc s =>
                     match CacheClient s with
                     | Some client =>
                         match cache.GetSorted client
                                 (cache.Key [cache.PopularItems]) 0 (-1) with
                         | Ok items => Some items
                         | Err _ => acc
                         end
                     | None => acc
                     end) turns acc with
          | Some items => PopularItemsCache.collect items
          | None => base
          end /\
        PopularItemsCache.test sc' = PopularItemsCache.test sc /\
        count isSleep did = length turns /\
        count isDebugLog did = length turns
    | Panicked _ => Exists (fun s => CacheClient s = None \/ GorseConfig s = None) turns
    end.
Proof.
  induction turns as [|s turns IH]; intros sc acc base Hacc.
  - simpl. repeat split; [constructor | exact Hacc].
  - cbn [popularLoop fold_left]. destruct (CacheClient s) as [client|] eqn:Hc.
    + pose proof (popular_sync_quiet client sc) as (Hs & Hd & Ht).
      assert (Hnext :
        PopularItemsCache.scores (fst (PopularItemsCache.sync client sc)) =
        match match cache.GetSorted client (cache.Key [cache.PopularItems]) 0 (-1) with
              | Ok items => Some items
              | Err _ => acc
              end with
        | Some items => PopularItemsCache.collect items
        | None => base
        end).
      { unfold PopularItemsCache.sync.
        destruct (cache.GetSorted _ _ _ _); [reflexivity | exact Hacc]. }
      destruct (PopularItemsCache.sync client sc) as [sc1 did1].
      cbn [fst snd] in Hs, Hd, Ht, Hnext.
      destruct (GorseConfig s) as [cfg|] eqn:Hg; [|left; right; exact Hg].
      specialize (IH sc1 _ base Hnext).
      destruct (popularLoop turns sc1) as [sc' did | did]; cbn [andThen].
      * destruct IH as (Hall & Hscores & Htest & Hsleep & Hdebug).
        rewrite !count_app, Hs, Hd, Hsleep, Hdebug.
        split; [constructor; [split; congruence | exact Hall]|].
        split; [exact Hscores|]. split; [congruence|].
        split; unfold count; simpl; lia.
      * right. exact IH.
    + left. left. exact Hc.
Qed.

(** X15. The refresh goroutine of the popular items cache, after any number
    of turns. It has ended in a panic only if a turn found a nil client or a
    nil configuration. When it is alive, every turn found a client and a
    configuration, the snapshot is the one collected from the last query
    that succeeded, or the initial one when none did, and the goroutine has
    written one debug line and slept once for each turn. *)
Theorem popularLoop_serves_last_success (turns : list RestServer)
    (sc : PopularItemsCache.t) :
  match popularLoop turns sc with
  | Alive sc' did =>
      Forall (fun s => CacheClient s <> None /\ GorseConfig s <> None) turns /\
      PopularItemsCache.scores sc' =
        match lastPopular turns with
        | Some items => PopularItemsCache.collect items
        | None => PopularItemsCache.scores sc
        end /\
      PopularItemsCache.test sc' = PopularItemsCache.test sc /\
      count isSleep did = length turns /\
      count isDebugLog did = length turns
  | Panicked _ => Exists (fun s => CacheClient s = None \/ GorseConfig s = None) turns
  end.
Proof.
  apply (popularLoop_from turns sc None (PopularItemsCache.scores sc)). reflexivity.
Qed.

(** The loop started from a cache whose snapshot and update time are those
    of [acc], or [base] when [acc] is empty. *)
Lemma hiddenLoop_from (turns : list (RestServer * time.Time)) :
  forall (hc : HiddenItemsCache.t) (acc : option (time.Time * list cache.Scored))
         (base : gset string * time.Time),
    (HiddenItemsCache.hiddenItems hc, HiddenItemsCache.updateTime hc) =
      match acc with
      | Some (ts, score) =>
          (HiddenItemsCache.strsetNew (cache.RemoveScores score), ts)
      | None => base
      end ->
    match hiddenLoop turns hc with
    | Alive hc' did =>
        Forall (fun turn => CacheClient (fst turn) <> None /\
                            GorseConfig (fst turn) <> None) turns /\
        (HiddenItemsCache.hiddenItems hc', HiddenItemsCache.updateTime hc') =
          match fold_left
                  (fun acc turn =>
                     match CacheClient (fst turn) with
                     | Some client =>
                         match cache.GetSortedByScore client cache.HiddenItemsV2 NegInf
                                 (float64_of_int (time.Unix (snd turn))) with
                         | Ok score => Some (snd turn, score)
                         | Err _ => acc
                         end
                     | None => acc
                     end) turns acc with
          | Some (ts, score) =>
              (HiddenItemsCache.strsetNew (cache.RemoveScores score), ts)
          | None => base
          end /\
        HiddenItemsCache.test hc' = HiddenItemsCache.test hc /\
        count isSleep did = length turns /\
        count isDebugLog did = length turns
    | Panicked _ =>
        Exists (fun turn => CacheClient (fst turn) = None \/
                            GorseConfig (fst turn) = None) turns
    end.
Proof.
  induction turns as [|[s now] turns IH]; intros hc acc base Hacc.
  - simpl. repeat split; [constructor | exact Hacc].
  - cbn [hiddenLoop fold_left fst snd]. destruct (CacheClient s) as [client|] eqn:Hc.
    + pose proof (hidden_sync_quiet client now hc) as (Hs & Hd & Ht).
      assert (Hnext :
        (HiddenItemsCache.hiddenItems (fst (HiddenItemsCache.sync client now hc)),
         HiddenItemsCache.updateTime (fst (HiddenItemsCache.sync client now hc))) =
        match match cache.GetSortedByScore client cache.HiddenItemsV2 NegInf
                      (float64_of_int (time.Unix now)) with
              | Ok score => Some (now, score)
              | Err _ => acc
              end with
        | Some (ts, score) =>
            (HiddenItemsCache.strsetNew (cache.RemoveScores score), ts)
        | None => base
        end).
      { unfold HiddenItemsCache.sync.
        destruct (cache.GetSortedByScore _ _ _ _); [reflexivity | exact Hacc]. }
      destruct (HiddenItemsCache.sync client now hc) as [hc1 did1].
      cbn [fst snd] in Hs, Hd, Ht, Hnext.
      destruct (GorseConfig s) as [cfg|] eqn:Hg; [|left; right; exact Hg].
      specialize (IH hc1 _ base Hnext).
      destruct (hiddenLoop turns hc1) as [hc' did | did]; cbn [andThen].
      * destruct IH as (Hall & Hsnap & Htest & Hsleep & Hdebug).
        rewrite !count_app, Hs, Hd, Hsleep, Hdebug.
        split; [constructor; [simpl; split; congruence | exact Hall]|].
        split; [exact Hsnap|]. split; [congruence|].
        split; unfold count; simpl; lia.
      * right. exact IH.
    + left. left. exact Hc.
Qed.

(** X16. The refresh goroutine of the hidden items cache, after any number
    of turns. It has ended in a panic only if a turn found a nil client or a
    nil configuration. When it is alive, every turn found a client and a
    configuration, and the snapshot and its update time are those of the
    last refresh whose query succeeded, or the initial ones when none did,
    so a snapshot is never paired with the time of a refresh that failed. *)
Theorem hiddenLoop_serves_last_success (turns : list (RestServer * time.Time))
    (hc : HiddenItemsCache.t) :
  match hiddenLoop turns hc with
  | Alive hc' did =>
      Forall (fun turn => CacheClient (fst turn) <> None /\
                          GorseConfig (fst turn) <> None) turns /\
      (HiddenItemsCache.hiddenItems hc', HiddenItemsCache.updateTime hc') =
        match lastHidden turns with
        | Some (ts, score) =>
            (HiddenItemsCache.strsetNew (cache.RemoveScores score), ts)
        | None => (HiddenItemsCache.hiddenItems hc, HiddenItemsCache.updateTime hc)
        end /\
      HiddenItemsCache.test hc' = HiddenItemsCache.test hc /\
      count isSleep did = length turns /\
      count isDebugLog did = length turns
  | Panicked _ =>
      Exists (fun turn => CacheClient (fst turn) = None \/
                          GorseConfig (fst turn) = None) turns
  end.
Proof.
  apply (hiddenLoop_from turns hc None
           (HiddenItemsCache.hiddenItems hc, HiddenItemsCache.updateTime hc)).
  reflexivity.
Qed.

(** A turn that finds a nil client, or a nil configuration, ends the
    goroutine. *)
Lemma popularLoop_panics (s : RestServer) (later : list RestServer)
    (sc : PopularItemsCache.t) :
  CacheClient s = None \/ GorseConfig s = None ->
  stillAlive (popularLoop (s :: later) sc) = false.
Proof.
  intros H. cbn [popularLoop]. destruct (CacheClient s) as [client|]; [|reflexivity].
  destruct H as [H | H]; [discriminate H|].
  destruct (PopularItemsCache.sync client sc). rewrite H. reflexivity.
Qed.

Lemma hiddenLoop_panics (s : RestServer) (now : time.Time)
    (later : list (RestServer * time.Time)) (hc : HiddenItemsCache.t) :
  CacheClient s = None \/ GorseConfig s = None ->
  stillAlive (hiddenLoop ((s, now) :: later) hc) = false.
Proof.
  intros H. cbn [hiddenLoop]. destruct (CacheClient s) as [client|]; [|reflexivity].
  destruct H as [H | H]; [discriminate H|].
  destruct (HiddenItemsCache.sync client now hc). rewrite H. reflexivity.
Qed.

(** X17. A failed open of the cache store that returns a nil client ends
    both refresh goroutines: the pass of [Sync], which pulled a
    configuration and decoded it without error, stores the nil client, and
    the next turn of either goroutine calls a method on it and panics,
    before it has done anything. *)
Theorem nil_cache_client_panics
    (env : tickEnv) (s : Server) (meta : Meta) (cfg : config.Config)
    (e : errors.error)
    (later : list RestServer) (sc : PopularItemsCache.t)
    (now : time.Time) (laterHidden : list (RestServer * time.Time))
    (hc : HiddenItemsCache.t) :
  getMeta env (nodeInfo s) = Ok meta ->
  json.Unmarshal (Config meta) (GorseConfig (rest s)) = (Some cfg, None) ->
  dataStepPasses env s cfg ->
  cachePath s <> config.CacheStore (config.Database cfg) ->
  cacheOpen env (config.CacheStore (config.Database cfg)) = (None, Some e) ->
  let seen := rest (fst (syncBody env s)) in
  popularLoop (seen :: later) sc = Panicked [] /\
  hiddenLoop ((seen, now) :: laterHidden) hc = Panicked [].
Proof.
  intros Hm Hj Hpass Hne Hopen seen.
  assert (Hnil : CacheClient seen = None).
  { subst seen. revert Hpass Hne Hopen. store_cases Hm Hj; finish_store. }
  simpl. rewrite Hnil. split; reflexivity.
Qed.

Lemma nil_cache_client_panics_witness :
  popularLoop [rest (fst (syncBody cacheDown (exampleServer false)))]
    PopularItemsCache.New = Panicked [].
Proof.
  destruct (nil_cache_client_panics cacheDown (exampleServer false)
              {| Config := blobStores "" "redis://cache" |}
              (exampleConfig "" "redis://cache")
              (errors.Other "cannot open cache store")
              [] PopularItemsCache.New (atSecond 0) [] HiddenItemsCache.New
              eq_refl eq_refl) as [Hpanic _].
  - left. reflexivity.
  - vm_compute. discriminate.
  - reflexivity.
  - exact Hpanic.
Defined.

(** X21. A pull that the master answers with the blob [null] ends both
    refresh goroutines as well: the pass of [Sync] leaves the server without
    configuration, and the next turn of either goroutine panics, at the
    latest when it reads the interval for its debug line. *)
Theorem null_blob_ends_refresh
    (env : tickEnv) (s : Server)
    (later : list RestServer) (sc : PopularItemsCache.t)
    (now : time.Time) (laterHidden : list (RestServer * time.Time))
    (hc : HiddenItemsCache.t) :
  pullsNull (nodeInfo s) env ->
  let seen := rest (fst (syncBody env s)) in
  GorseConfig seen = None /\
  stillAlive (popularLoop (seen :: later) sc) = false /\
  stillAlive (hiddenLoop ((seen, now) :: laterHidden) hc) = false /\
  count isSleep (loopEvents (popularLoop (seen :: later) sc)) = 0%nat /\
  count isSleep (loopEvents (hiddenLoop ((seen, now) :: laterHidden) hc)) = 0%nat.
Proof.
  intros Hnull seen. apply passPanics_iff in Hnull.
  destruct (syncBody_panicked env s Hnull) as [Hn _]. fold seen in Hn.
  split; [exact Hn|].
  split; [apply popularLoop_panics; right; exact Hn|].
  split; [apply hiddenLoop_panics; right; exact Hn|].
  cbn [popularLoop hiddenLoop]. rewrite Hn.
  destruct (CacheClient seen) as [client|]; [|split; reflexivity].
  pose proof (popular_sync_quiet client sc) as (Hp & _).
  pose proof (hidden_sync_quiet client now hc) as (Hh & _).
  destruct (PopularItemsCache.sync client sc) as [sc1 did1].
  destruct (HiddenItemsCache.sync client now hc) as [hc1 did2].
  split; [exact Hp | exact Hh].
Qed.

Lemma null_blob_ends_refresh_witness :
  stillAlive
    (popularLoop [rest (fst (syncBody nullBlob (exampleServer false)))]
       PopularItemsCache.New) = false.
Proof.
  destruct (null_blob_ends_refresh nullBlob (exampleServer false)
              [] PopularItemsCache.New (atSecond 0) [] HiddenItemsCache.New)
    as (_ & Hpanic & _).
  - exists {| Config := Some json.Null |}. split; reflexivity.
  - exact Hpanic.
Defined.

(** ** Further behaviour on failures and on batches *)

Lemma IsNotAssigned_Trace (e : errors.error) :
  errors.IsNotAssigned (errors.Trace e) = errors.IsNotAssigned e.
Proof. reflexivity. Qed.

(** X18. The two readers of the hidden items collection treat the "not
    assigned" kind of error differently. On a store whose queries fail with
    an error of that kind the refresh is silent and keeps the cache, but
    [IsHidden] returns the error to its caller, with no answers; the error it
    returns is still of that kind. *)
Theorem NotAssigned_silent_in_sync_returned_by_IsHidden
    (client : cache.Database) (e : errors.error)
    (now : time.Time) (hc : HiddenItemsCache.t) (members : list string) :
  errors.IsNotAssigned e = true ->
  (forall key lo hi, cache.GetSortedByScore client key lo hi = Err e) ->
  HiddenItemsCache.sync client now hc = (hc, []) /\
  exists err,
    HiddenItemsCache.IsHidden client now hc members = (None, Some err) /\
    errors.IsNotAssigned err = true /\
    errors.Cause err = errors.Cause e.
Proof.
  intros Hkind Hfail. split.
  - unfold HiddenItemsCache.sync. rewrite Hfail, Hkind. reflexivity.
  - exists (errors.Trace e). unfold HiddenItemsCache.IsHidden. rewrite Hfail.
    split; [reflexivity|]. split; [rewrite IsNotAssigned_Trace; exact Hkind | reflexivity].
Qed.

Lemma NotAssigned_silent_in_sync_returned_by_IsHidden_witness :
  HiddenItemsCache.sync (cache.failing (errors.NotAssigned "database")) (atSecond 10)
    HiddenItemsCache.New = (HiddenItemsCache.New, []) /\
  fst (HiddenItemsCache.IsHidden (cache.failing (errors.NotAssigned "database"))
         (atSecond 10) HiddenItemsCache.New ["x"]) = None.
Proof.
  destruct (NotAssigned_silent_in_sync_returned_by_IsHidden
              (cache.failing (errors.NotAssigned "database"))
              (errors.NotAssigned "database") (atSecond 10) HiddenItemsCache.New ["x"]
              eq_refl (fun _ _ _ => eq_refl)) as [Hsync (err & Hcall & _)].
  split; [exact Hsync|]. rewrite Hcall. reflexivity.
Defined.

(** X19. A configuration that was pulled and decoded without error is in
    force at once, also when a store cannot be opened in the same pass: the
    pass leaves it as the server's configuration, and outside test mode the
    sleep that follows the pass lasts its meta timeout. *)
Theorem pulled_config_in_force_despite_open_failure
    (env : tickEnv) (envs : list tickEnv) (s : Server) (meta : Meta)
    (cfg : config.Config) :
  getMeta env (nodeInfo s) = Ok meta ->
  json.Unmarshal (Config meta) (GorseConfig (rest s)) = (Some cfg, None) ->
  GorseConfig (rest (fst (syncBody env s))) = Some cfg /\
  (testMode s = false ->
   syncLoop (env :: envs) s =
     after (snd (syncBody env s) ++ [Sleep (config.MetaTimeout (config.Master cfg))])
           (syncLoop envs (fst (syncBody env s)))).
Proof.
  intros Hm Hj.
  pose proof (syncBody_pulled_config env s meta cfg Hm Hj) as Hcfg.
  split; [exact Hcfg|].
  intros Ht.
  assert (Hp : passPanics env s = false).
  { destruct (passPanics env s) eqn:Hp; [|reflexivity].
    destruct (syncBody_panicked env s Hp) as [Hn _]. congruence. }
  rewrite syncLoop_cons, Hp, syncBody_testMode, Ht, Hcfg. reflexivity.
Qed.

Lemma pulled_config_in_force_despite_open_failure_witness :
  GorseConfig
    (rest (fst (syncBody (exampleEnv (blobStores "mysql://data" "redis://cache") false false)
                  (exampleServer false))))
  = Some (exampleConfig "mysql://data" "redis://cache").
Proof.
  destruct (pulled_config_in_force_despite_open_failure
              (exampleEnv (blobStores "mysql://data" "redis://cache") false false) []
              (exampleServer false)
              {| Config := blobStores "mysql://data" "redis://cache" |}
              (exampleConfig "mysql://data" "redis://cache") eq_refl eq_refl)
    as [Hcfg _].
  exact Hcfg.
Defined.

(** X20. A batch is answered member by member: at the same instant, on the
    same store, the answers for two lists of members put together are the
    answers for the first followed by the answers for the second, and a call
    fails for one list exactly when it fails for any other. *)
Theorem IsHidden_batch (client : cache.Database) (now : time.Time)
    (hc : HiddenItemsCache.t) (first second : list string) :
  match HiddenItemsCache.IsHidden client now hc (first ++ second) with
  | (Some bs, err) =>
      err = None /\
      exists b1 b2,
        HiddenItemsCache.IsHidden client now hc first = (Some b1, None) /\
        HiddenItemsCache.IsHidden client now hc second = (Some b2, None) /\
        bs = b1 ++ b2 /\ length b1 = length first /\ length b2 = length second
  | (None, err) =>
      HiddenItemsCache.IsHidden client now hc first = (None, err) /\
      HiddenItemsCache.IsHidden client now hc second = (None, err)
  end.
Proof.
  unfold HiddenItemsCache.IsHidden.
  destruct (cache.GetSortedByScore _ _ _ _) as [score | e].
  - split; [reflexivity|]. eexists. eexists.
    split; [reflexivity|]. split; [reflexivity|].
    split; [apply map_app|]. split; apply length_map.
  - split; reflexivity.
Qed.
